(** * Banking system (main.py)

    A shallow embedding of the transaction engine of [main.py]: the interest
    strategies, [Account] with its two balance mutators, the reversible
    commands, the snapshot file of [BankDatabase] and the undo stack of
    [InteractiveBankSystem].

    Modelling choices.
    - A Python [float] is an IEEE 754 binary64 number: amounts and balances are
      Rocq's primitive floats, with their comparisons ([<=?], [<?], [=?]) and
      rounding arithmetic. [amount > balance] is [balance <? amount].
    - Account objects are mutable and shared (the database, and every command
      on the undo stack, hold references to them). The store of objects is a
      finite map; a reference is the key of the object in that map, which for
      the accounts of the database is the account id ([add_account] files an
      account under its id, and [create_account] refuses an id already used).
    - [datetime.now()] is a reading of the environment: [clock n] is the
      value of the n-th reading, and the environment counts the readings.
    - [print] appends to the standard output, kept as a list of records.
      [clear_screen] and the [input("Press Enter ...")] pauses are left out.
    - [json.dump]/[json.load] are an opaque boundary: the file holds the
      document given to [json.dump], and [json.load] gives it back. A file
      written by something else can have no text, no JSON, or JSON of
      another shape than the one [load_data] expects.
    - [str.lower] is modelled on ASCII text. *)

From Stdlib Require Import Ascii String DecimalString DecimalNat.
From Corelib Require Import PrimFloat FloatOps FloatAxioms SpecFloat.
From stdpp Require Import gmap strings list.

Set Warnings "-inexact-float".
Local Open Scope string_scope.
Local Open Scope list_scope.

(** ** The datetime library *)

(** What the program uses of Python's [datetime]: the type, the clock, and
    the conversion to and from ISO text ([None] stands for the [ValueError]
    that [fromisoformat] raises on text it cannot read). *)
Class DateTime := {
  datetime : Type;
  clock : nat -> datetime;
  isoformat : datetime -> string;
  fromisoformat : string -> option datetime
}.

(** ** Strategy pattern: interest calculation *)

Inductive InterestStrategy := SavingsInterest | CheckingInterest | LoanInterest.

Definition calculate_interest (s : InterestStrategy) (balance : float) : float :=
  match s with
  | SavingsInterest => (balance * 0.02)%float
  | CheckingInterest => (balance * 0.001)%float
  | LoanInterest => (balance * 0.05)%float
  end.

(** [str.lower] as it is on text made of ASCII characters: the letters A to
    Z become a to z, and nothing else changes. The strings of the model are
    strings of bytes; on text with other characters [str.lower] works on the
    Unicode characters (it lowers the Kelvin sign to k, for one), which
    [lower] does not follow: [ascii_only] marks the strings on which the two
    agree. *)
Definition ascii_only (s : string) : bool :=
  forallb (fun c => (nat_of_ascii c <? 128)%nat) (list_ascii_of_string s).

Definition lower_ascii (c : ascii) : ascii :=
  let n := nat_of_ascii c in
  if (65 <=? n)%nat && (n <=? 90)%nat then ascii_of_nat (n + 32) else c.

Fixpoint lower (s : string) : string :=
  match s with
  | EmptyString => EmptyString
  | String c s' => String (lower_ascii c) (lower s')
  end.

(** The dictionary lookup of [Account.__init__], with its default. *)
Definition strategy_for (account_type : string) : InterestStrategy :=
  let k := lower account_type in
  if String.eqb k "savings" then SavingsInterest
  else if String.eqb k "checking" then CheckingInterest
  else if String.eqb k "loan" then LoanInterest
  else SavingsInterest.

(** ** Core banking classes *)

Inductive TransactionObserver := TransactionLogger.

Section Core.
Context `{DateTime}.

Record Transaction := mkTransaction {
  type : string;
  amount : float;
  timestamp : datetime
}.

Record Account := mkAccount {
  account_id : string;
  owner : string;
  account_type : string;
  balance : float;
  transaction_history : list Transaction;
  observers : list TransactionObserver;
  interest_strategy : InterestStrategy
}.

(** The exceptions that [load_data] can meet. Its [except] clause names the
    first three. *)
Inductive Exception :=
| FileNotFoundError
| JSONDecodeError
| KeyError (key : string)
| ValueError
| UnicodeDecodeError
| TypeError
| AttributeError.

(** A record of the standard output: the line of the transaction logger, the
    messages of the menu operations (formatted numbers kept as numbers), and
    the warning of [load_data]. *)
Inductive Output :=
| TransactionLog (id : string) (txn : Transaction)
| Print (line : string)
| PrintBalance (line : string) (new_balance : float)
| PrintTransfer (source_balance destination_balance : float)
| PrintInterest (interest new_balance : float)
| PrintAccount (a : Account)
| Warning (e : Exception).

Record Env := mkEnv {
  ticks : nat;
  stdout : list Output
}.

Definition now (e : Env) : datetime * Env :=
  (clock (ticks e), mkEnv (S (ticks e)) (stdout e)).

Definition print (o : Output) (e : Env) : Env :=
  mkEnv (ticks e) (stdout e ++ [o]).

End Core.

Module Observer.
Section Methods.
Context `{DateTime}.

Definition on_transaction (o : TransactionObserver) (account : Account)
    (transaction : Transaction) (e : Env) : Env :=
  match o with
  | TransactionLogger => print (TransactionLog (account_id account) transaction) e
  end.

(** [for observer in self.observers: observer.on_transaction(self, transaction)] *)
Definition notify_all (account : Account) (transaction : Transaction) (e : Env) : Env :=
  foldl (fun e' o => on_transaction o account transaction e') e (observers account).

End Methods.
End Observer.

Module Account.
Section Methods.
Context `{DateTime}.

Definition init (account_id owner account_type : string) : Account :=
  {| account_id := account_id;
     owner := owner;
     account_type := account_type;
     balance := 0%float;
     transaction_history := [];
     observers := [];
     interest_strategy := strategy_for account_type |}.

Definition attach (observer : TransactionObserver) (self : Account) : Account :=
  {| account_id := account_id self;
     owner := owner self;
     account_type := account_type self;
     balance := balance self;
     transaction_history := transaction_history self;
     observers := observers self ++ [observer];
     interest_strategy := interest_strategy self |}.

(** The two assignments shared by [deposit] and [withdraw]: the new balance,
    and the transaction appended to the history. *)
Definition commit (new_balance : float) (transaction : Transaction) (self : Account) : Account :=
  {| account_id := account_id self;
     owner := owner self;
     account_type := account_type self;
     balance := new_balance;
     transaction_history := transaction_history self ++ [transaction];
     observers := observers self;
     interest_strategy := interest_strategy self |}.

Definition deposit (amount : float) (self : Account) (e : Env) : bool * Account * Env :=
  if (amount <=? 0)%float then (false, self, e)
  else
    let '(t, e1) := now e in
    let transaction := mkTransaction "DEPOSIT" amount t in
    let self' := commit (balance self + amount)%float transaction self in
    (true, self', Observer.notify_all self' transaction e1).

Definition withdraw (amount : float) (self : Account) (e : Env) : bool * Account * Env :=
  if (amount <=? 0)%float || (balance self <? amount)%float then (false, self, e)
  else
    let '(t, e1) := now e in
    let transaction := mkTransaction "WITHDRAWAL" amount t in
    let self' := commit (balance self - amount)%float transaction self in
    (true, self', Observer.notify_all self' transaction e1).

(** [apply_interest] returns the interest; the result of the inner [deposit]
    is dropped. *)
Definition apply_interest (self : Account) (e : Env) : float * Account * Env :=
  let interest := calculate_interest (interest_strategy self) (balance self) in
  if negb (interest =? 0)%float then
    let '(_, self', e') := deposit interest self e in (interest, self', e')
  else (interest, self, e).

Definition get_transaction_history (self : Account) : list Transaction :=
  transaction_history self.

End Methods.
End Account.

(** ** Command pattern *)

(** A command holds references to the accounts it targets, and the amount. *)
Inductive TransactionCommand :=
| DepositCommand (account : string) (amount : float)
| WithdrawCommand (account : string) (amount : float)
| TransferCommand (from_acct to_acct : string) (amount : float).

Module Command.
Section Methods.
Context `{DateTime}.

(** A method call on the object behind the reference [r]: the object is
    read from the store, and the store holds the mutated object afterwards.
    [None]: no object behind [r] (a Python reference always has one). *)
Definition call (r : string) (method : Account -> Env -> bool * Account * Env)
    (accounts : gmap string Account) (e : Env)
    : option (bool * gmap string Account * Env) :=
  match accounts !! r with
  | None => None
  | Some self =>
      let '(ok, self', e') := method self e in
      Some (ok, <[r := self']> accounts, e')
  end.

Definition execute (cmd : TransactionCommand) (accounts : gmap string Account) (e : Env)
    : option (bool * gmap string Account * Env) :=
  match cmd with
  | DepositCommand account amount => call account (Account.deposit amount) accounts e
  | WithdrawCommand account amount => call account (Account.withdraw amount) accounts e
  | TransferCommand from_acct to_acct amount =>
      match call from_acct (Account.withdraw amount) accounts e with
      | Some (true, accounts', e') => call to_acct (Account.deposit amount) accounts' e'
      | Some (false, accounts', e') => Some (false, accounts', e')
      | None => None
      end
  end.

Definition undo (cmd : TransactionCommand) (accounts : gmap string Account) (e : Env)
    : option (bool * gmap string Account * Env) :=
  match cmd with
  | DepositCommand account amount => call account (Account.withdraw amount) accounts e
  | WithdrawCommand account amount => call account (Account.deposit amount) accounts e
  | TransferCommand from_acct to_acct amount =>
      match call to_acct (Account.withdraw amount) accounts e with
      | Some (true, accounts', e') => call from_acct (Account.deposit amount) accounts' e'
      | Some (false, accounts', e') => Some (false, accounts', e')
      | None => None
      end
  end.

End Methods.
End Command.

(** ** The snapshot file *)

(** What [json.load] gives where the program expects a value of some type:
    a JSON value of another type, or a value of that type. *)
Inductive Typed (A : Type) : Type :=
| Other
| Is (v : A).

Arguments Other {A}.
Arguments Is {A} v.

(** What a [for] loop finds in a JSON value: nothing to iterate over (a
    number, true, false, null), or items: the elements of an array, and for
    a string or an object its characters or its keys, which are strings and
    so items of another type than the objects expected. *)
Inductive Iterable (A : Type) : Type :=
| NotIterable
| Items (items : list A).

Arguments NotIterable {A}.
Arguments Items {A} items.

(** The document of [bank_data.json] after [json.load], as far as
    [load_data] looks into it. A field is present or absent. Where the
    program does something with a value that needs its type (iterates over
    it, reads a key of it, calls [lower] or [fromisoformat] on it, uses it as
    a key of the dictionary of accounts) the value has the expected type or
    another one. Where it only stores the value ([owner], [balance], [type],
    [amount], and an [account_id] that can be hashed) the value has the type
    of the attribute: Python loads a snapshot with another type there without
    an error, and such snapshots are outside this model.

    [data_timestamp]: [Other] is a value that is no string.
    [data_account_id]: [Other] is an array or an object, which cannot be
    hashed. [data_account_type]: [Other] is a value that is no string.
    An item [Other] of the transactions or of the accounts is a value that
    is no object. *)
Record TransactionData := mkTransactionData {
  data_type : option string;
  data_amount : option float;
  data_timestamp : option (Typed string)
}.

Record AccountData := mkAccountData {
  data_account_id : option (Typed string);
  data_owner : option string;
  data_account_type : option (Typed string);
  data_balance : option float;
  data_transactions : option (Iterable (Typed TransactionData))
}.

Record Document := mkDocument {
  data_accounts : option (Iterable (Typed AccountData))
}.

(** [bank_data.json]: absent; bytes that are no text in the encoding of
    [open]; text that [json.load] rejects; a JSON object; a JSON value that
    is no object. *)
Inductive File :=
| NoFile
| NotText
| Undecodable
| Json (data : Document)
| JsonOther.

Module BankDatabase.
Section Methods.
Context `{DateTime}.

Definition add_account (account : Account) (accounts : gmap string Account)
    : gmap string Account :=
  <[account_id account := account]> accounts.

Definition get_account (id : string) (accounts : gmap string Account) : option Account :=
  accounts !! id.

Definition get_all_accounts (accounts : gmap string Account) : list Account :=
  (map_to_list accounts).*2.

Definition dump_transaction (txn : Transaction) : TransactionData :=
  {| data_type := Some (type txn);
     data_amount := Some (amount txn);
     data_timestamp := Some (Is (isoformat (timestamp txn))) |}.

Definition dump_account (acct : Account) : AccountData :=
  {| data_account_id := Some (Is (account_id acct));
     data_owner := Some (owner acct);
     data_account_type := Some (Is (account_type acct));
     data_balance := Some (balance acct);
     data_transactions :=
       Some (Items (map (fun txn => Is (dump_transaction txn)) (transaction_history acct))) |}.

(** [save_data] overwrites the file with the document of all accounts. *)
Definition save_data (accounts : gmap string Account) : File :=
  Json {| data_accounts :=
            Some (Items (map (fun acct => Is (dump_account acct)) ((map_to_list accounts).*2))) |}.

(** [d[key]] on an object: [KeyError] when the key is absent. *)
Definition getitem {A} (key : string) (field : option A) : Exception + A :=
  match field with
  | Some v => inr v
  | None => inl (KeyError key)
  end.

Definition bind {A B} (x : Exception + A) (k : A -> Exception + B) : Exception + B :=
  match x with
  | inl e => inl e
  | inr v => k v
  end.

(** The start of a [for] loop: [TypeError] on a value that is not iterable. *)
Definition iterate {A} (v : Iterable A) : Exception + list A :=
  match v with
  | NotIterable => inl TypeError
  | Items items => inr items
  end.

(** One [Transaction(...)] of the list comprehension. [txn['type']] on a
    value that is no object is a [TypeError], and so is [fromisoformat] on a
    value that is no string. *)
Definition load_transaction (item : Typed TransactionData) : Exception + Transaction :=
  match item with
  | Other => inl TypeError
  | Is txn =>
      bind (getitem "type" (data_type txn)) (fun ty =>
      bind (getitem "amount" (data_amount txn)) (fun am =>
      bind (getitem "timestamp" (data_timestamp txn)) (fun ts =>
      match ts with
      | Other => inl TypeError
      | Is ts =>
          match fromisoformat ts with
          | Some t => inr (mkTransaction ty am t)
          | None => inl ValueError
          end
      end)))
  end.

(** The list comprehension over the transactions of a record. *)
Fixpoint load_transactions (txns : list (Typed TransactionData))
    : Exception + list Transaction :=
  match txns with
  | [] => inr []
  | txn :: rest =>
      bind (load_transaction txn) (fun t =>
      bind (load_transactions rest) (fun ts => inr (t :: ts)))
  end.

(** The body of the loop over the records, up to the account that is filed.
    In the order of the code: [acct_data.get] ([AttributeError] on a value
    that is no object), [acct_data['account_id']], [acct_data['owner']], the
    constructor of [Account] (its [account_type.lower()] is an
    [AttributeError] on a value that is no string), [acct_data['balance']],
    the transactions, and the assignment [self.accounts[account.account_id]]
    (a [TypeError] on an id that cannot be hashed). *)
Definition load_account (item : Typed AccountData) : Exception + Account :=
  match item with
  | Other => inl AttributeError
  | Is acct_data =>
      let account_type' := default (Is "savings") (data_account_type acct_data) in
      bind (getitem "account_id" (data_account_id acct_data)) (fun id =>
      bind (getitem "owner" (data_owner acct_data)) (fun ow =>
      bind (match account_type' with Other => inl AttributeError | Is ty => inr ty end) (fun ty =>
      bind (getitem "balance" (data_balance acct_data)) (fun b =>
      bind (bind (iterate (default (Items []) (data_transactions acct_data)))
              load_transactions) (fun txns =>
      match id with
      | Other => inl TypeError
      | Is id =>
          let account := Account.init id ow ty in
          inr {| account_id := account_id account;
                 owner := owner account;
                 account_type := account_type account;
                 balance := b;
                 transaction_history := txns;
                 observers := observers account;
                 interest_strategy := interest_strategy account |}
      end)))))
  end.

(** The loop over the records: each account is filed under its id. *)
Fixpoint load_accounts (records : list (Typed AccountData)) (accounts : gmap string Account)
    : Exception + gmap string Account :=
  match records with
  | [] => inr accounts
  | acct_data :: rest =>
      bind (load_account acct_data) (fun account =>
      load_accounts rest (<[account_id account := account]> accounts))
  end.

(** The body of the [try] block. [json.load] raises [UnicodeDecodeError] on
    bytes that are no text and [JSONDecodeError] on text that is no JSON;
    [data['accounts']] is a [TypeError] on a value that is no object. *)
Definition load_body (file : File) (accounts : gmap string Account)
    : Exception + gmap string Account :=
  match file with
  | NoFile => inl FileNotFoundError
  | NotText => inl UnicodeDecodeError
  | Undecodable => inl JSONDecodeError
  | JsonOther => inl TypeError
  | Json data =>
      bind (getitem "accounts" (data_accounts data)) (fun v =>
      bind (iterate v) (fun records =>
      load_accounts records accounts))
  end.

(** [except (FileNotFoundError, json.JSONDecodeError, KeyError)]. *)
Definition caught (exn : Exception) : bool :=
  match exn with
  | FileNotFoundError | JSONDecodeError | KeyError _ => true
  | ValueError | UnicodeDecodeError | TypeError | AttributeError => false
  end.

(** [load_data]: an exception of the [except] clause is caught, a warning is
    printed and the accounts are reset; any other exception is not caught
    and leaves the function. *)
Definition load_data (file : File) (accounts : gmap string Account) (e : Env)
    : Exception + (gmap string Account * Env) :=
  match load_body file accounts with
  | inr accounts' => inr (accounts', e)
  | inl exn => if caught exn then inr (∅, print (Warning exn) e) else inl exn
  end.

(** [BankDatabase()], the singleton of [__new__]: the first call makes the
    instance with no account and loads the file into it; a later call
    returns the instance there is, and reads nothing. *)
Definition new (instance : option (gmap string Account)) (file : File) (e : Env)
    : Exception + (gmap string Account * Env) :=
  match instance with
  | None => load_data file ∅ e
  | Some accounts => inr (accounts, e)
  end.

End Methods.
End BankDatabase.

(** ** Shapes of documents

    The required fields are those that [load_data] reads with [d[key]]:
    [account_id], [owner] and [balance] of an account, [type], [amount] and
    [timestamp] of a transaction, and [accounts] of the document.
    [account_type] and [transactions] are read with [get] and a default. A
    document is complete when every required field is there and every value
    has the type that the program expects. *)
Definition transaction_complete (item : Typed TransactionData) : bool :=
  match item with
  | Is txn =>
      match data_type txn, data_amount txn, data_timestamp txn with
      | Some _, Some _, Some (Is _) => true
      | _, _, _ => false
      end
  | Other => false
  end.

Definition account_complete (item : Typed AccountData) : bool :=
  match item with
  | Is acct_data =>
      match data_account_id acct_data, data_owner acct_data, data_balance acct_data with
      | Some (Is _), Some _, Some _ =>
          match data_account_type acct_data with
          | Some Other => false
          | _ =>
              match data_transactions acct_data with
              | Some NotIterable => false
              | Some (Items txns) => forallb transaction_complete txns
              | None => true
              end
          end
      | _, _, _ => false
      end
  | Other => false
  end.

Definition document_complete (data : Document) : bool :=
  match data_accounts data with
  | Some (Items records) => forallb account_complete records
  | _ => false
  end.

Section Shapes.
Context `{DateTime}.

(** The timestamp of a transaction, when it is a string, is text that
    [fromisoformat] reads. *)
Definition timestamp_readable (item : Typed TransactionData) : bool :=
  match item with
  | Is txn =>
      match data_timestamp txn with
      | Some (Is ts) => match fromisoformat ts with Some _ => true | None => false end
      | _ => true
      end
  | Other => true
  end.

Definition account_readable (item : Typed AccountData) : bool :=
  match item with
  | Is acct_data =>
      match data_transactions acct_data with
      | Some (Items txns) => forallb timestamp_readable txns
      | _ => true
      end
  | Other => true
  end.

Definition timestamps_readable (data : Document) : bool :=
  match data_accounts data with
  | Some (Items records) => forallb account_readable records
  | _ => true
  end.

(** *** The first defect of a document

    What is wrong with a document, for [load_data], at the first place where
    something is, in the order in which [load_data] reads: a required field
    that is missing ([KeyError], with the key), a timestamp that cannot be
    read ([ValueError]), or a value of another type than the one expected
    ([TypeError], [AttributeError]); [None] when nothing is wrong. *)
Definition transaction_defect (item : Typed TransactionData) : option Exception :=
  match item with
  | Other => Some TypeError
  | Is txn =>
      match data_type txn, data_amount txn, data_timestamp txn with
      | None, _, _ => Some (KeyError "type")
      | Some _, None, _ => Some (KeyError "amount")
      | Some _, Some _, None => Some (KeyError "timestamp")
      | Some _, Some _, Some Other => Some TypeError
      | Some _, Some _, Some (Is ts) =>
          match fromisoformat ts with
          | Some _ => None
          | None => Some ValueError
          end
      end
  end.

Fixpoint first_defect {A} (defect : A -> option Exception) (items : list A)
    : option Exception :=
  match items with
  | [] => None
  | item :: rest =>
      match defect item with
      | Some exn => Some exn
      | None => first_defect defect rest
      end
  end.

Definition account_defect (item : Typed AccountData) : option Exception :=
  match item with
  | Other => Some AttributeError
  | Is acct_data =>
      match data_account_id acct_data, data_owner acct_data with
      | None, _ => Some (KeyError "account_id")
      | Some _, None => Some (KeyError "owner")
      | Some id, Some _ =>
          match data_account_type acct_data, data_balance acct_data with
          | Some Other, _ => Some AttributeError
          | _, None => Some (KeyError "balance")
          | _, Some _ =>
              match data_transactions acct_data with
              | Some NotIterable => Some TypeError
              | Some (Items txns) =>
                  match first_defect transaction_defect txns with
                  | Some exn => Some exn
                  | None => match id with Other => Some TypeError | Is _ => None end
                  end
              | None => match id with Other => Some TypeError | Is _ => None end
              end
          end
      end
  end.

Definition document_defect (data : Document) : option Exception :=
  match data_accounts data with
  | None => Some (KeyError "accounts")
  | Some NotIterable => Some TypeError
  | Some (Items records) => first_defect account_defect records
  end.

(** The account that [load_data] builds from what [save_data] wrote for
    [a]: the constructor of [Account] gives it no observer and the strategy
    of its type; balance and history are assigned from the document. *)
Definition restored (a : Account) : Account :=
  {| account_id := account_id a;
     owner := owner a;
     account_type := account_type a;
     balance := balance a;
     transaction_history := transaction_history a;
     observers := [];
     interest_strategy := strategy_for (account_type a) |}.

(** Every account of the database is filed under its id. *)
Definition filed_by_id (accounts : gmap string Account) : Prop :=
  map_Forall (fun k a => account_id a = k) accounts.

End Shapes.

(** ** The interactive banking system *)

Section System.
Context `{DateTime}.

(** The object behind [self] in the menu operations: the accounts of the
    database singleton, the stack of executed commands, and the environment.
    ([transaction_logger] is the constant [TransactionLogger]; the name in
    [current_customer] is only displayed.) *)
Record InteractiveBankSystem := mkSystem {
  database : gmap string Account;
  undo_stack : list TransactionCommand;
  env : Env
}.

End System.

(** One turn of the menu loop of [run] that reaches the engine, with what the
    user typed; [None] for the amount is text that [float] rejects. *)
Inductive Choice :=
| CreateAccount (account_id owner choice : string)
| Deposit (account_id : string) (amount : option float)
| Withdraw (account_id : string) (amount : option float)
| Transfer (from_id to_id : string) (amount : option float)
| ApplyInterest (account_id : string)
| UndoLastTransaction.

Module InteractiveBankSystem.
Section Methods.
Context `{DateTime}.

Definition say (o : Output) (self : InteractiveBankSystem) : InteractiveBankSystem :=
  mkSystem (database self) (undo_stack self) (print o (env self)).

Definition create_account (account_id owner choice : string)
    (self : InteractiveBankSystem) : InteractiveBankSystem :=
  match BankDatabase.get_account account_id (database self) with
  | Some _ => say (Print "Error: Account ID already exists!") self
  | None =>
      let account_type :=
        if String.eqb choice "1" then "savings"
        else if String.eqb choice "2" then "checking"
        else if String.eqb choice "3" then "loan"
        else "savings" in
      let account :=
        Account.attach TransactionLogger (Account.init account_id owner account_type) in
      mkSystem (BankDatabase.add_account account (database self)) (undo_stack self)
               (print (PrintAccount account) (env self))
  end.

(** The results are [option]s only because [Command.execute] is: [None]
    would be a command on an object that is not in the store. *)
Definition deposit (account_id : string) (amount : option float)
    (self : InteractiveBankSystem) : option InteractiveBankSystem :=
  match BankDatabase.get_account account_id (database self) with
  | None => Some (say (Print "Error: Account not found!") self)
  | Some _ =>
      match amount with
      | None => Some (say (Print "Error: Please enter a valid number!") self)
      | Some amount =>
          let cmd := DepositCommand account_id amount in
          match Command.execute cmd (database self) (env self) with
          | None => None
          | Some (true, accounts, e) =>
              account ← accounts !! account_id;
              Some (mkSystem accounts (undo_stack self ++ [cmd])
                      (print (PrintBalance "Deposit successful! New balance:"
                                (balance account)) e))
          | Some (false, accounts, e) =>
              Some (mkSystem accounts (undo_stack self)
                      (print (Print "Error: Invalid deposit amount!") e))
          end
      end
  end.

Definition withdraw (account_id : string) (amount : option float)
    (self : InteractiveBankSystem) : option InteractiveBankSystem :=
  match BankDatabase.get_account account_id (database self) with
  | None => Some (say (Print "Error: Account not found!") self)
  | Some _ =>
      match amount with
      | None => Some (say (Print "Error: Please enter a valid number!") self)
      | Some amount =>
          let cmd := WithdrawCommand account_id amount in
          match Command.execute cmd (database self) (env self) with
          | None => None
          | Some (true, accounts, e) =>
              account ← accounts !! account_id;
              Some (mkSystem accounts (undo_stack self ++ [cmd])
                      (print (PrintBalance "Withdrawal successful! New balance:"
                                (balance account)) e))
          | Some (false, accounts, e) =>
              Some (mkSystem accounts (undo_stack self)
                      (print (Print "Error: Invalid withdrawal amount or insufficient funds!") e))
          end
      end
  end.

Definition transfer (from_id to_id : string) (amount : option float)
    (self : InteractiveBankSystem) : option InteractiveBankSystem :=
  match BankDatabase.get_account from_id (database self),
        BankDatabase.get_account to_id (database self) with
  | Some _, Some _ =>
      match amount with
      | None => Some (say (Print "Error: Please enter a valid number!") self)
      | Some amount =>
          let cmd := TransferCommand from_id to_id amount in
          match Command.execute cmd (database self) (env self) with
          | None => None
          | Some (true, accounts, e) =>
              from_acct ← accounts !! from_id;
              to_acct ← accounts !! to_id;
              Some (mkSystem accounts (undo_stack self ++ [cmd])
                      (print (PrintTransfer (balance from_acct) (balance to_acct))
                         (print (Print "Transfer successful!") e)))
          | Some (false, accounts, e) =>
              Some (mkSystem accounts (undo_stack self)
                      (print (Print "Error: Invalid transfer amount or insufficient funds!") e))
          end
      end
  | _, _ => Some (say (Print "Error: One or both accounts not found!") self)
  end.

Definition apply_interest (account_id : string) (self : InteractiveBankSystem)
    : InteractiveBankSystem :=
  match BankDatabase.get_account account_id (database self) with
  | None => say (Print "Error: Account not found!") self
  | Some account =>
      let '(interest, account', e) := Account.apply_interest account (env self) in
      mkSystem (<[account_id := account']> (database self)) (undo_stack self)
        (if negb (interest =? 0)%float
         then print (PrintInterest interest (balance account')) e
         else print (Print "No interest applied (zero balance or checking account)") e)
  end.

(** [self.undo_stack.pop()] takes the last element of the list. *)
Definition undo_transaction (self : InteractiveBankSystem) : option InteractiveBankSystem :=
  match last (undo_stack self) with
  | None => Some (say (Print "No transactions to undo!") self)
  | Some cmd =>
      let stack := removelast (undo_stack self) in
      match Command.undo cmd (database self) (env self) with
      | None => None
      | Some (true, accounts, e) =>
          Some (mkSystem accounts stack (print (Print "Transaction successfully undone!") e))
      | Some (false, accounts, e) =>
          Some (mkSystem accounts stack (print (Print "Error: Failed to undo transaction!") e))
      end
  end.


(** The dispatch of [run]. *)
Definition step (c : Choice) (self : InteractiveBankSystem) : option InteractiveBankSystem :=
  match c with
  | CreateAccount account_id owner choice => Some (create_account account_id owner choice self)
  | Deposit account_id amount => deposit account_id amount self
  | Withdraw account_id amount => withdraw account_id amount self
  | Transfer from_id to_id amount => transfer from_id to_id amount self
  | ApplyInterest account_id => Some (apply_interest account_id self)
  | UndoLastTransaction => undo_transaction self
  end.

(** The command that a choice of the menu builds, if it builds one. *)
Definition command_of (c : Choice) : option TransactionCommand :=
  match c with
  | Deposit account_id (Some amount) => Some (DepositCommand account_id amount)
  | Withdraw account_id (Some amount) => Some (WithdrawCommand account_id amount)
  | Transfer from_id to_id (Some amount) => Some (TransferCommand from_id to_id amount)
  | _ => None
  end.

(** A run of the menu loop over a list of choices. *)
Fixpoint steps (cs : list Choice) (self : InteractiveBankSystem) : option InteractiveBankSystem :=
  match cs with
  | [] => Some self
  | c :: cs' =>
      match step c self with
      | None => None
      | Some self' => steps cs' self'
      end
  end.

(** [__init__] in a new process, where the database has no instance yet:
    the accounts of the file, and an empty undo stack. *)
Definition init (file : File) (e : Env) : Exception + InteractiveBankSystem :=
  match BankDatabase.new None file e with
  | inl exn => inl exn
  | inr (accounts, e') => inr (mkSystem accounts [] e')
  end.

(** Choice 0 of [run]: the database is saved and the loop ends. The result
    is the file written and the environment. *)
Definition quit (self : InteractiveBankSystem) : File * Env :=
  (BankDatabase.save_data (database self),
   print (Print "Exiting banking system. Goodbye!") (env self)).

End Methods.
End InteractiveBankSystem.

(** ** The legs of a command

    What [execute] and [undo] of a command call, in order: which primitive on
    which account. Used to state what a command and its undo do to the
    balance and the history of each account. *)
Inductive Primitive :=
| Dep (amount : float)
| Wd (amount : float).

Definition legs_execute (cmd : TransactionCommand) : list (string * Primitive) :=
  match cmd with
  | DepositCommand account amount => [(account, Dep amount)]
  | WithdrawCommand account amount => [(account, Wd amount)]
  | TransferCommand from_acct to_acct amount => [(from_acct, Wd amount); (to_acct, Dep amount)]
  end.

Definition legs_undo (cmd : TransactionCommand) : list (string * Primitive) :=
  match cmd with
  | DepositCommand account amount => [(account, Wd amount)]
  | WithdrawCommand account amount => [(account, Dep amount)]
  | TransferCommand from_acct to_acct amount => [(to_acct, Wd amount); (from_acct, Dep amount)]
  end.

(** The primitives that a list of legs applies to the account behind [r]. *)
Fixpoint legs_on (r : string) (legs : list (string * Primitive)) : list Primitive :=
  match legs with
  | [] => []
  | (r', p) :: rest => if String.eqb r' r then p :: legs_on r rest else legs_on r rest
  end.

Definition apply_primitive (b : float) (p : Primitive) : float :=
  match p with
  | Dep x => (b + x)%float
  | Wd x => (b - x)%float
  end.

(** The type and amount of the transaction that a primitive records. *)
Definition record_of (p : Primitive) : string * float :=
  match p with
  | Dep x => ("DEPOSIT", x)
  | Wd x => ("WITHDRAWAL", x)
  end.

Section Legs.
Context `{DateTime}.

Definition primitive_method (p : Primitive) : Account -> Env -> bool * Account * Env :=
  match p with
  | Dep x => Account.deposit x
  | Wd x => Account.withdraw x
  end.

(** The legs run in order, stopping at the first that fails. *)
Fixpoint run_legs (legs : list (string * Primitive)) (accounts : gmap string Account)
    (e : Env) : option (bool * gmap string Account * Env) :=
  match legs with
  | [] => Some (true, accounts, e)
  | (r, p) :: rest =>
      match Command.call r (primitive_method p) accounts e with
      | Some (true, accounts', e') => run_legs rest accounts' e'
      | Some (false, accounts', e') => Some (false, accounts', e')
      | None => None
      end
  end.

Definition described (txn : Transaction) : string * float := (type txn, amount txn).

(** [a'] is [a] after the primitives [ps]: the balance went through them in
    order, the history gained one transaction for each, nothing was removed,
    and the other fields are the same. *)
Definition evolves (a a' : Account) (ps : list Primitive) : Prop :=
  exists txns,
    balance a' = foldl apply_primitive (balance a) ps
    /\ transaction_history a' = (transaction_history a ++ txns)%list
    /\ map described txns = map record_of ps
    /\ account_id a' = account_id a
    /\ owner a' = owner a
    /\ account_type a' = account_type a
    /\ observers a' = observers a
    /\ interest_strategy a' = interest_strategy a.

End Legs.

(** ** What a run keeps *)

Section Invariants.
Context `{DateTime}.

(** A transaction as [deposit] and [withdraw] record them: an amount that
    passed the guard [amount <= 0], and one of the two types. *)
Definition recorded (txn : Transaction) : Prop :=
  (amount txn <=? 0)%float = false
  /\ (type txn = "DEPOSIT" \/ type txn = "WITHDRAWAL").

(** [a'] is a later state of the account [a]: the same id, owner, type,
    observers and strategy, and the history of [a] followed by recorded
    transactions. *)
Definition grows (a a' : Account) : Prop :=
  account_id a' = account_id a
  /\ owner a' = owner a
  /\ account_type a' = account_type a
  /\ observers a' = observers a
  /\ interest_strategy a' = interest_strategy a
  /\ exists txns,
       transaction_history a' = transaction_history a ++ txns /\ Forall recorded txns.

(** [a] is an account as [create_account] makes it under the id [k]. *)
Definition created (k : string) (a : Account) : Prop :=
  exists ow ty, a = Account.attach TransactionLogger (Account.init k ow ty).

(** [m'] is a later state of the store [m]: every account of [m] is still
    there, under its key, in a later state; every other account of [m'] was
    created under its key, and is in a later state of that. *)
Definition store_evolves (m m' : gmap string Account) : Prop :=
  (forall k a, m !! k = Some a -> exists a', m' !! k = Some a' /\ grows a a')
  /\ (forall k a', m' !! k = Some a' ->
        (exists a, m !! k = Some a) \/ (exists a0, created k a0 /\ grows a0 a')).

(** Every command of the undo stack is on accounts of the database. *)
Definition stack_ok (s : InteractiveBankSystem) : Prop :=
  Forall (fun cmd => Forall (fun leg => fst leg ∈ dom (database s)) (legs_undo cmd))
         (undo_stack s).

(** Every transaction in the histories of the store is a recorded one. *)
Definition histories_recorded (m : gmap string Account) : Prop :=
  map_Forall (fun _ a => Forall recorded (transaction_history a)) m.

End Invariants.

(** ** A datetime library to run the model on

    Datetimes count seconds, the n-th reading of the clock is [n], and the ISO
    text of a datetime is its decimal numeral; text that is not a numeral is
    rejected. *)
Definition Seconds : DateTime := {|
  datetime := nat;
  clock := fun n => n;
  isoformat := fun d => NilEmpty.string_of_uint (Nat.to_uint d);
  fromisoformat := fun s => Nat.of_uint <$> NilEmpty.uint_of_string s
|}.

(** Accounts and a system to run the model on: an account of Alice with a
    given balance, as [create_account] builds it (logger attached), and the
    system at start-up with no snapshot file. *)
Definition alice (b : float) : @Account Seconds :=
  @mkAccount Seconds "A" "alice" "savings" b [] [TransactionLogger] SavingsInterest.

Definition bob (b : float) : @Account Seconds :=
  @mkAccount Seconds "B" "bob" "checking" b [] [TransactionLogger] CheckingInterest.

Definition quiet : @Env Seconds := @mkEnv Seconds 0 [].

Definition fresh : @InteractiveBankSystem Seconds := @mkSystem Seconds ∅ [] quiet.

(** A deposit of 0.4 on a balance of 0.1, and the state it leaves. *)
Definition deposit_txn : @Transaction Seconds := @mkTransaction Seconds "DEPOSIT" 0.4 0.

Definition alice_after_deposit : @Account Seconds :=
  Account.commit (0.1 + 0.4)%float deposit_txn (alice 0.1).

Definition env_after_deposit : @Env Seconds :=
  @mkEnv Seconds 1 [TransactionLog "A" deposit_txn].

(** A store with the accounts of Alice (100) and Bob (50). *)
Definition two_accounts : gmap string (@Account Seconds) :=
  <["A" := alice 100]> (<["B" := bob 50]> ∅).

(** A session: Alice and Bob open accounts, then a deposit, a withdrawal and
    a transfer, each of which succeeds. *)
Definition opened : @InteractiveBankSystem Seconds :=
  default fresh
    (InteractiveBankSystem.steps
       [CreateAccount "A" "alice" "1"; CreateAccount "B" "bob" "2"] fresh).

Definition after1 : @InteractiveBankSystem Seconds :=
  default opened (InteractiveBankSystem.step (Deposit "A" (Some 100%float)) opened).

Definition after2 : @InteractiveBankSystem Seconds :=
  default after1 (InteractiveBankSystem.step (Withdraw "A" (Some 30%float)) after1).

Definition after3 : @InteractiveBankSystem Seconds :=
  default after2 (InteractiveBankSystem.step (Transfer "A" "B" (Some 20%float)) after2).

(** A database to save, and records of a snapshot file. *)
Definition saved_accounts : gmap string (@Account Seconds) :=
  <["A" := alice_after_deposit]> (<["B" := bob 50]> ∅).

Definition record_without_type : Typed AccountData :=
  Is (mkAccountData (Some (Is "C")) (Some "carol") None (Some 7%float) None).

Definition record_without_owner : Typed AccountData :=
  Is (mkAccountData (Some (Is "D")) None (Some (Is "loan")) (Some 1%float) (Some (Items []))).

Definition record_with_bad_timestamp : Typed AccountData :=
  Is (mkAccountData (Some (Is "E")) (Some "erin") (Some (Is "loan")) (Some 1%float)
        (Some (Items [Is (mkTransactionData (Some "DEPOSIT") (Some 1%float)
                            (Some (Is "yesterday")))]))).

Definition record_overdrawn : Typed AccountData :=
  Is (mkAccountData (Some (Is "F")) (Some "frank") (Some (Is "savings")) (Some (-100)%float)
        (Some (Items []))).

(** Documents: a record after one with a timestamp that cannot be read; a
    record with a number where the list of transactions is expected. *)
Definition document_unreadable_then_incomplete : Document :=
  mkDocument (Some (Items [record_with_bad_timestamp; record_without_owner])).

Definition document_incomplete_then_unreadable : Document :=
  mkDocument (Some (Items [record_without_owner; record_with_bad_timestamp])).

Definition record_with_number_for_transactions : Typed AccountData :=
  Is (mkAccountData (Some (Is "G")) (Some "gina") None (Some 1%float) (Some NotIterable)).

(** The choices of the session, and the session in a process that started
    without a snapshot file. *)
Definition session_choices : list Choice :=
  [CreateAccount "A" "alice" "1"; CreateAccount "B" "bob" "2";
   Deposit "A" (Some 100%float); Withdraw "A" (Some 30%float);
   Transfer "A" "B" (Some 20%float)].

Definition started : @InteractiveBankSystem Seconds :=
  @mkSystem Seconds ∅ [] (print (Warning FileNotFoundError) quiet).

Definition session_end : @InteractiveBankSystem Seconds :=
  default started (InteractiveBankSystem.steps session_choices started).

(** * Properties *)

(** ** Comparisons of binary64 numbers *)

(** [0 < a] excludes [a <= 0] (and [a] is then no NaN). *)
Lemma positive_not_le_zero (a : float) :
  (0 <? a)%float = true -> (a <=? 0)%float = false.
Proof.
  rewrite ltb_spec, leb_spec.
  change (Prim2SF 0%float) with (S754_zero false).
  unfold SFltb, SFleb.
  destruct (Prim2SF a) as [s | s | | s m x]; simpl; try discriminate;
    destruct s; simpl; congruence.
Qed.

(** ** Account *)

Section AccountProperties.
Context `{DateTime}.

Lemma deposit_rejected (self : Account) (amount : float) (e : Env) :
  (amount <=? 0)%float = true -> Account.deposit amount self e = (false, self, e).
Proof. intros Hle. unfold Account.deposit. now rewrite Hle. Qed.

Lemma deposit_accepted (self : Account) (amount : float) (e : Env) :
  (amount <=? 0)%float = false ->
  Account.deposit amount self e =
    (true,
     Account.commit (balance self + amount)%float
       (mkTransaction "DEPOSIT" amount (clock (ticks e))) self,
     Observer.notify_all
       (Account.commit (balance self + amount)%float
          (mkTransaction "DEPOSIT" amount (clock (ticks e))) self)
       (mkTransaction "DEPOSIT" amount (clock (ticks e)))
       (mkEnv (S (ticks e)) (stdout e))).
Proof. intros Hle. unfold Account.deposit. now rewrite Hle. Qed.

Lemma withdraw_rejected (self : Account) (amount : float) (e : Env) :
  (amount <=? 0)%float || (balance self <? amount)%float = true ->
  Account.withdraw amount self e = (false, self, e).
Proof. intros Hg. unfold Account.withdraw. now rewrite Hg. Qed.

Lemma withdraw_accepted (self : Account) (amount : float) (e : Env) :
  (amount <=? 0)%float || (balance self <? amount)%float = false ->
  Account.withdraw amount self e =
    (true,
     Account.commit (balance self - amount)%float
       (mkTransaction "WITHDRAWAL" amount (clock (ticks e))) self,
     Observer.notify_all
       (Account.commit (balance self - amount)%float
          (mkTransaction "WITHDRAWAL" amount (clock (ticks e))) self)
       (mkTransaction "WITHDRAWAL" amount (clock (ticks e)))
       (mkEnv (S (ticks e)) (stdout e))).
Proof. intros Hg. unfold Account.withdraw. now rewrite Hg. Qed.

(** The observers print; they do not read the clock. *)
Lemma notify_all_ticks (account : Account) (txn : Transaction) (e : Env) :
  ticks (Observer.notify_all account txn e) = ticks e.
Proof.
  unfold Observer.notify_all. generalize (observers account) as os.
  intros os. revert e. induction os as [| o os IH]; intros e; simpl; [reflexivity |].
  rewrite IH. now destruct o.
Qed.

(** C2. [Account.deposit amount] returns false exactly when [amount <= 0],
    and then the account and the environment are as before; otherwise (in
    particular whenever [amount > 0]) it returns true, the balance is the old
    balance plus the amount, the history is the old history followed by one
    DEPOSIT transaction of that amount, stamped with the clock, and the other
    fields of the account are as before. *)
Theorem deposit_spec (self : Account) (amount : float) (e : Env) :
  (fst (fst (Account.deposit amount self e)) = false <-> (amount <=? 0)%float = true)
  /\ ((amount <=? 0)%float = true -> Account.deposit amount self e = (false, self, e))
  /\ ((0 <? amount)%float = true -> (amount <=? 0)%float = false)
  /\ ((amount <=? 0)%float = false ->
      exists self' e',
        Account.deposit amount self e = (true, self', e')
        /\ balance self' = (balance self + amount)%float
        /\ transaction_history self' =
             (transaction_history self ++ [mkTransaction "DEPOSIT" amount (clock (ticks e))])%list
        /\ account_id self' = account_id self
        /\ owner self' = owner self
        /\ account_type self' = account_type self
        /\ observers self' = observers self
        /\ interest_strategy self' = interest_strategy self
        /\ ticks e' = S (ticks e)).
Proof.
  repeat split.
  - destruct (amount <=? 0)%float eqn:Hle; [reflexivity |].
    rewrite deposit_accepted by assumption. discriminate.
  - intros Hle. now rewrite deposit_rejected.
  - apply deposit_rejected.
  - apply positive_not_le_zero.
  - intros Hle. eexists _, _. rewrite deposit_accepted by assumption.
    repeat split. apply notify_all_ticks.
Qed.

(** C3. [Account.withdraw amount] fails exactly when [amount <= 0] or
    [amount > balance], and then nothing changes (no transaction is
    appended); otherwise it returns true, the balance is the old balance
    minus the amount, and the history is the old history followed by one
    WITHDRAWAL transaction of that amount. *)
Theorem withdraw_spec (self : Account) (amount : float) (e : Env) :
  (fst (fst (Account.withdraw amount self e)) = false <->
     ((amount <=? 0)%float = true \/ (balance self <? amount)%float = true))
  /\ ((amount <=? 0)%float = true \/ (balance self <? amount)%float = true ->
      Account.withdraw amount self e = (false, self, e))
  /\ ((amount <=? 0)%float = false /\ (balance self <? amount)%float = false ->
      exists self' e',
        Account.withdraw amount self e = (true, self', e')
        /\ balance self' = (balance self - amount)%float
        /\ transaction_history self' =
             (transaction_history self ++ [mkTransaction "WITHDRAWAL" amount (clock (ticks e))])%list
        /\ account_id self' = account_id self
        /\ owner self' = owner self
        /\ account_type self' = account_type self
        /\ observers self' = observers self
        /\ interest_strategy self' = interest_strategy self
        /\ ticks e' = S (ticks e)).
Proof.
  assert (Hor : forall b c : bool, b || c = true <-> b = true \/ c = true)
    by (intros [] []; simpl; tauto).
  repeat split.
  - destruct ((amount <=? 0)%float || (balance self <? amount)%float) eqn:Hg.
    + intros _. now apply Hor.
    + rewrite withdraw_accepted by assumption. discriminate.
  - intros Hg. apply Hor in Hg. now rewrite withdraw_rejected.
  - intros Hg. apply Hor in Hg. now apply withdraw_rejected.
  - intros [Hle Hlt]. eexists _, _.
    rewrite withdraw_accepted by (now rewrite Hle, Hlt).
    repeat split. apply notify_all_ticks.
Qed.

(** [apply_interest] returns the interest of the strategy on the balance,
    whatever the inner deposit did. *)
Lemma apply_interest_result (self : Account) (e : Env) :
  fst (fst (Account.apply_interest self e)) =
    calculate_interest (interest_strategy self) (balance self).
Proof.
  unfold Account.apply_interest.
  destruct (negb _); [| reflexivity].
  now destruct (Account.deposit _ self e) as [[ok self'] e'].
Qed.

End AccountProperties.

(** C5, on a savings account with balance -100: the interest is -2, the
    inner deposit of -2 is refused, so the account and the environment are as
    before, and [apply_interest] returns -2, not 0. *)
Theorem apply_interest_negative_accrual :
  Account.deposit (-2)%float (alice (-100)%float) quiet = (false, alice (-100)%float, quiet)
  /\ Account.apply_interest (alice (-100)%float) quiet = ((-2)%float, alice (-100)%float, quiet)
  /\ ((-2)%float =? 0)%float = false.
Proof. repeat split. Qed.

(** C7, on an account with balance 5: [deposit(nan)] and [withdraw(nan)]
    pass the guards (every comparison with NaN is false), return true, and
    leave a balance that is NaN, for which [0 <= balance] is false. *)
Theorem nan_amount_breaks_nonnegative_balance :
  (0 <=? balance (alice 5))%float = true
  /\ fst (fst (Account.deposit nan (alice 5) quiet)) = true
  /\ (0 <=? balance (snd (fst (Account.deposit nan (alice 5) quiet))))%float = false
  /\ fst (fst (Account.withdraw nan (alice 5) quiet)) = true
  /\ (0 <=? balance (snd (fst (Account.withdraw nan (alice 5) quiet))))%float = false.
Proof. repeat split. Qed.

(** ** Commands *)

Section CommandProperties.
Context `{DateTime}.

Lemma call_lookup (r : string) (method : Account -> Env -> bool * Account * Env)
    (accounts : gmap string Account) (e : Env) (self : Account) :
  accounts !! r = Some self ->
  Command.call r method accounts e =
    Some (fst (fst (method self e)), <[r := snd (fst (method self e))]> accounts,
          snd (method self e)).
Proof.
  intros Hr. unfold Command.call. rewrite Hr.
  now destruct (method self e) as [[ok self'] e'].
Qed.

Lemma call_inv (r : string) (method : Account -> Env -> bool * Account * Env)
    (accounts accounts' : gmap string Account) (e e' : Env) (ok : bool) :
  Command.call r method accounts e = Some (ok, accounts', e') ->
  exists self self',
    accounts !! r = Some self /\ method self e = (ok, self', e')
    /\ accounts' = <[r := self']> accounts.
Proof.
  unfold Command.call. destruct (accounts !! r) as [self |] eqn:Hr; [| discriminate].
  destruct (method self e) as [[ok0 self'] e0] eqn:Hm.
  intros [= <- <- <-]. now exists self, self'.
Qed.

(** A primitive that fails changes nothing; one that succeeds commits the
    new balance and one transaction, and reads the clock once. *)
Lemma primitive_method_false (p : Primitive) (self self' : Account) (e e' : Env) :
  primitive_method p self e = (false, self', e') -> self' = self /\ e' = e.
Proof.
  destruct p as [x | x]; simpl.
  - destruct (x <=? 0)%float eqn:Hle.
    + rewrite deposit_rejected by assumption. now intros [= <- <-].
    + rewrite deposit_accepted by assumption. discriminate.
  - destruct ((x <=? 0)%float || (balance self <? x)%float) eqn:Hg.
    + rewrite withdraw_rejected by assumption. now intros [= <- <-].
    + rewrite withdraw_accepted by assumption. discriminate.
Qed.

Lemma primitive_method_true (p : Primitive) (self self' : Account) (e e' : Env) :
  primitive_method p self e = (true, self', e') ->
  self' = Account.commit (apply_primitive (balance self) p)
            (mkTransaction (fst (record_of p)) (snd (record_of p)) (clock (ticks e))) self
  /\ ticks e' = S (ticks e).
Proof.
  destruct p as [x | x]; simpl.
  - destruct (x <=? 0)%float eqn:Hle.
    + rewrite deposit_rejected by assumption. discriminate.
    + rewrite deposit_accepted by assumption. intros [= <- <-].
      split; [reflexivity | apply notify_all_ticks].
  - destruct ((x <=? 0)%float || (balance self <? x)%float) eqn:Hg.
    + rewrite withdraw_rejected by assumption. discriminate.
    + rewrite withdraw_accepted by assumption. intros [= <- <-].
      split; [reflexivity | apply notify_all_ticks].
Qed.

(** A withdrawal that succeeds was of an amount that [deposit] accepts, on
    any account. *)
Lemma withdraw_true_amount (x : float) (self : Account) (e : Env) :
  fst (fst (Account.withdraw x self e)) = true -> (x <=? 0)%float = false.
Proof.
  destruct (x <=? 0)%float eqn:Hle; [| reflexivity].
  now rewrite withdraw_rejected by (now rewrite Hle).
Qed.

Lemma deposit_true_amount (x : float) (self : Account) (e : Env) :
  fst (fst (Account.deposit x self e)) = true -> (x <=? 0)%float = false.
Proof.
  destruct (x <=? 0)%float eqn:Hle; [| reflexivity].
  now rewrite deposit_rejected.
Qed.

Lemma deposit_true (x : float) (self : Account) (e : Env) :
  (x <=? 0)%float = false -> fst (fst (Account.deposit x self e)) = true.
Proof. intros Hle. now rewrite deposit_accepted. Qed.

Lemma execute_legs (cmd : TransactionCommand) (accounts : gmap string Account) (e : Env) :
  Command.execute cmd accounts e = run_legs (legs_execute cmd) accounts e.
Proof.
  destruct cmd; simpl;
    repeat (match goal with
            | |- context [Command.call ?r ?m ?a ?e] =>
                destruct (Command.call r m a e) as [[[[] ?] ?] |]
            end; simpl; try reflexivity).
Qed.

Lemma undo_legs (cmd : TransactionCommand) (accounts : gmap string Account) (e : Env) :
  Command.undo cmd accounts e = run_legs (legs_undo cmd) accounts e.
Proof.
  destruct cmd; simpl;
    repeat (match goal with
            | |- context [Command.call ?r ?m ?a ?e] =>
                destruct (Command.call r m a e) as [[[[] ?] ?] |]
            end; simpl; try reflexivity).
Qed.

Lemma run_legs_app (l1 l2 : list (string * Primitive))
    (accounts accounts1 : gmap string Account) (e e1 : Env) :
  run_legs l1 accounts e = Some (true, accounts1, e1) ->
  run_legs (l1 ++ l2) accounts e = run_legs l2 accounts1 e1.
Proof.
  revert accounts e. induction l1 as [| [r p] l1 IH]; intros accounts e; simpl.
  - now intros [= <- <-].
  - destruct (Command.call r (primitive_method p) accounts e) as [[[[] a'] e'] |];
      [apply IH | discriminate | discriminate].
Qed.

Lemma evolves_nil (a : Account) : evolves a a [].
Proof. exists []. rewrite app_nil_r. repeat split. Qed.

Lemma evolves_step (a a' : Account) (p : Primitive) (ps : list Primitive) (t : datetime) :
  evolves (Account.commit (apply_primitive (balance a) p)
             (mkTransaction (fst (record_of p)) (snd (record_of p)) t) a) a' ps ->
  evolves a a' (p :: ps).
Proof.
  intros (txns & Hb & Hh & Hd & Hid & Ho & Ht & Hobs & Hi). simpl in *.
  exists (mkTransaction (fst (record_of p)) (snd (record_of p)) t :: txns).
  rewrite Hb, Hh, <- app_assoc. simpl. rewrite Hd.
  unfold described at 1. simpl. rewrite <- surjective_pairing. repeat split; assumption.
Qed.

(** What a successful run of legs did to each account of the store. *)
Lemma run_legs_effect (legs : list (string * Primitive)) :
  forall (accounts accounts' : gmap string Account) (e e' : Env),
    run_legs legs accounts e = Some (true, accounts', e') ->
    ticks e' = ticks e + length legs
    /\ forall r a, accounts !! r = Some a ->
         exists a', accounts' !! r = Some a' /\ evolves a a' (legs_on r legs).
Proof.
  induction legs as [| [r0 p] legs IH]; intros accounts accounts' e e'; simpl.
  - intros [= <- <-]. split; [lia |]. intros r a Hr. exists a. split; [assumption |].
    apply evolves_nil.
  - destruct (Command.call r0 (primitive_method p) accounts e) as [[[[] acc1] e1] |] eqn:Hc;
      [| discriminate | discriminate].
    apply call_inv in Hc as (self & self' & Hself & Hm & ->).
    apply primitive_method_true in Hm as [-> Ht].
    intros Hrun. apply IH in Hrun as [Hticks Hrun]. split; [lia |].
    intros r a Hr. destruct (String.eqb_spec r0 r) as [-> | Hne].
    + specialize (Hrun r _ (lookup_insert_eq _ _ _)) as (a' & Ha' & Hev).
      assert (self = a) as -> by congruence.
      exists a'. split; [assumption |]. now apply evolves_step in Hev.
    + apply Hrun. now rewrite lookup_insert_ne.
Qed.

(** Legs replace objects of the store in place: no reference is added or lost. *)
Lemma run_legs_dom (legs : list (string * Primitive)) :
  forall (accounts accounts' : gmap string Account) (e e' : Env) (ok : bool),
    run_legs legs accounts e = Some (ok, accounts', e') -> dom accounts' = dom accounts.
Proof.
  induction legs as [| [r0 p] legs IH]; intros accounts accounts' e e' ok; simpl.
  - now intros [= <- <- <-].
  - destruct (Command.call r0 (primitive_method p) accounts e) as [[[[] acc1] e1] |] eqn:Hc;
      [| | discriminate];
      apply call_inv in Hc as (self & self' & Hself & Hm & ->).
    + intros Hrun. apply IH in Hrun as ->. now apply dom_insert_lookup_L.
    + intros [= <- <- <-]. now apply dom_insert_lookup_L.
Qed.

(** Legs on objects of the store return. *)
Lemma run_legs_total (legs : list (string * Primitive)) :
  forall (accounts : gmap string Account) (e : Env),
    Forall (fun leg => fst leg ∈ dom accounts) legs ->
    is_Some (run_legs legs accounts e).
Proof.
  induction legs as [| [r0 p] legs IH]; intros accounts e Hall; simpl; [eauto |].
  apply Forall_cons in Hall as [Hr0 Hall]. simpl in Hr0.
  apply elem_of_dom in Hr0 as [self Hself].
  rewrite (call_lookup _ _ _ _ _ Hself).
  destruct (fst (fst (primitive_method p self e))); [| eauto].
  apply IH. rewrite dom_insert_lookup_L by eauto. assumption.
Qed.

(** A run that succeeded went through objects of the store. *)
Lemma run_legs_refs (legs : list (string * Primitive)) :
  forall (accounts accounts' : gmap string Account) (e e' : Env),
    run_legs legs accounts e = Some (true, accounts', e') ->
    Forall (fun leg => fst leg ∈ dom accounts) legs.
Proof.
  induction legs as [| [r0 p] legs IH]; intros accounts accounts' e e'; simpl; [constructor |].
  destruct (Command.call r0 (primitive_method p) accounts e) as [[[[] acc1] e1] |] eqn:Hc;
    [| discriminate | discriminate].
  apply call_inv in Hc as (self & self' & Hself & Hm & ->).
  intros Hrun. apply IH in Hrun. constructor.
  - simpl. apply elem_of_dom. eauto.
  - rewrite dom_insert_lookup_L in Hrun by eauto. assumption.
Qed.

Lemma call_false (r : string) (p : Primitive) (accounts accounts' : gmap string Account)
    (e e' : Env) :
  Command.call r (primitive_method p) accounts e = Some (false, accounts', e') ->
  accounts' = accounts /\ e' = e.
Proof.
  intros Hc. apply call_inv in Hc as (self & self' & Hself & Hm & ->).
  apply primitive_method_false in Hm as [-> ->]. split; [| reflexivity].
  now apply insert_id.
Qed.

(** After a command was executed with success, its undo returns, and when it
    fails it failed on its first leg, before any change. *)
Lemma undo_after_execute (cmd : TransactionCommand)
    (accounts accounts1 : gmap string Account) (e e1 : Env) :
  Command.execute cmd accounts e = Some (true, accounts1, e1) ->
  exists ok accounts2 e2,
    Command.undo cmd accounts1 e1 = Some (ok, accounts2, e2)
    /\ (ok = false -> accounts2 = accounts1 /\ e2 = e1).
Proof.
  intros Hex.
  assert (Hdom : Forall (fun leg => fst leg ∈ dom accounts1) (legs_undo cmd)).
  { rewrite execute_legs in Hex. pose proof (run_legs_refs _ _ _ _ _ Hex) as Hrefs.
    apply run_legs_dom in Hex. rewrite Hex.
    destruct cmd; simpl in *; repeat (apply Forall_cons in Hrefs as [? Hrefs]);
      repeat constructor; assumption. }
  destruct (run_legs_total _ accounts1 e1 Hdom) as [[[ok accounts2] e2] Hun].
  rewrite <- undo_legs in Hun. exists ok, accounts2, e2. split; [assumption |].
  intros ->. destruct cmd as [r x | r x | f t x]; simpl in *.
  - now apply (call_false r (Wd x)) in Hun.
  - apply call_inv in Hex as (a & a' & _ & Hw & _).
    apply call_inv in Hun as (b & b' & _ & Hd & _).
    pose proof (withdraw_true_amount x a e) as Hx. rewrite Hw in Hx.
    pose proof (deposit_true x b e1 (Hx eq_refl)) as Hok. rewrite Hd in Hok. discriminate.
  - destruct (Command.call f (Account.withdraw x) accounts e) as [[[[] acc] e'] |] eqn:Hw;
      [| discriminate | discriminate].
    apply call_inv in Hw as (a & a' & _ & Hw & _).
    pose proof (withdraw_true_amount x a e) as Hx. rewrite Hw in Hx. specialize (Hx eq_refl).
    destruct (Command.call t (Account.withdraw x) accounts1 e1) as [[[[] acc2] e2'] |] eqn:Hw2;
      [| | discriminate].
    + apply call_inv in Hun as (b & b' & _ & Hd & _).
      pose proof (deposit_true x b e2' Hx) as Hok. rewrite Hd in Hok. discriminate.
    + injection Hun as <- <-. now apply (call_false t (Wd x)) in Hw2.
Qed.

(** After an execute and an undo that both succeeded, each account went
    through the legs of the execute and then those of the undo. *)
Lemma execute_undo_effect (cmd : TransactionCommand)
    (accounts accounts1 accounts2 : gmap string Account) (e e1 e2 : Env) :
  Command.execute cmd accounts e = Some (true, accounts1, e1) ->
  Command.undo cmd accounts1 e1 = Some (true, accounts2, e2) ->
  forall r a, accounts !! r = Some a ->
    exists a2,
      accounts2 !! r = Some a2
      /\ evolves a a2 (legs_on r (legs_execute cmd ++ legs_undo cmd)).
Proof.
  intros Hex Hun r a Hr.
  rewrite execute_legs in Hex. rewrite undo_legs in Hun.
  rewrite <- (run_legs_app _ (legs_undo cmd) _ _ _ _ Hex) in Hun.
  apply run_legs_effect in Hun as [_ Hun]. now apply Hun.
Qed.

Lemma withdraw_returns (x : float) (a : Account) (e : Env) :
  fst (fst (Account.withdraw x a e)) = negb ((x <=? 0)%float || (balance a <? x)%float).
Proof.
  destruct ((x <=? 0)%float || (balance a <? x)%float) eqn:Hg.
  - now rewrite withdraw_rejected.
  - now rewrite withdraw_accepted.
Qed.

(** What the undo of a command that was just executed with success returns:
    the result of the withdrawal it starts with, if it starts with one. *)
Lemma undo_result (cmd : TransactionCommand)
    (accounts accounts1 accounts2 : gmap string Account) (e e1 e2 : Env) (ok : bool) :
  Command.execute cmd accounts e = Some (true, accounts1, e1) ->
  Command.undo cmd accounts1 e1 = Some (ok, accounts2, e2) ->
  match cmd with
  | DepositCommand r x =>
      exists a, accounts !! r = Some a /\ ok = negb (balance a + x <? x)%float
  | WithdrawCommand _ _ => ok = true
  | TransferCommand _ t x =>
      exists b1, accounts1 !! t = Some b1 /\ ok = negb (balance b1 <? x)%float
  end.
Proof.
  intros Hex Hun. destruct cmd as [r x | r x | f t x]; simpl in *.
  - apply call_inv in Hex as (a & a1 & Hr & Hd & ->).
    pose proof (deposit_true_amount x a e) as Hx. rewrite Hd in Hx. specialize (Hx eq_refl).
    apply (primitive_method_true (Dep x)) in Hd as [-> _].
    rewrite (call_lookup _ _ _ _ _ (lookup_insert_eq _ _ _)) in Hun.
    injection Hun as <- _ _. exists a. split; [assumption |].
    rewrite withdraw_returns. simpl. now rewrite Hx.
  - apply call_inv in Hex as (a & a' & _ & Hw & _).
    apply call_inv in Hun as (b & b' & _ & Hd & _).
    pose proof (withdraw_true_amount x a e) as Hx. rewrite Hw in Hx.
    pose proof (deposit_true x b e1 (Hx eq_refl)) as Hok. now rewrite Hd in Hok.
  - destruct (Command.call f (Account.withdraw x) accounts e) as [[[[] acc] e'] |] eqn:Hw;
      [| discriminate | discriminate].
    apply call_inv in Hw as (a & a' & _ & Hw & _).
    pose proof (withdraw_true_amount x a e) as Hx. rewrite Hw in Hx. specialize (Hx eq_refl).
    destruct (Command.call t (Account.withdraw x) accounts1 e1) as [[[ok1 acc2] e2'] |] eqn:Hw2;
      [| discriminate].
    apply call_inv in Hw2 as (b1 & b1' & Ht & Hm & ->).
    exists b1. split; [assumption |].
    pose proof (withdraw_returns x b1 e1) as Hret. rewrite Hm, Hx in Hret. simpl in Hret.
    destruct ok1.
    + apply call_inv in Hun as (c & c' & _ & Hd & _).
      pose proof (deposit_true x c e2' Hx) as Hok. rewrite Hd in Hok. simpl in Hok.
      now rewrite Hok.
    + now injection Hun as <- _ _.
Qed.

(** C1 (amended). After a command was executed with success, an immediate
    undo returns, and it fails only when the withdrawal it starts with is
    refused: never for a withdraw command; for a deposit command exactly
    when the amount is greater than [b + x], the balance that the execute
    left; for a transfer exactly when the amount is greater than the balance
    that the execute left on the destination. When it fails nothing changed
    since the execute; when it succeeds, every account of the store has its
    history from before the execute followed by one transaction for each
    primitive that the execute and then the undo applied to it (none
    removed, so the length grew by their number), and its balance is the
    balance from before the execute taken through those primitives in
    binary64 arithmetic, [(b + x) - x] for a deposit that was undone. *)
Theorem execute_then_undo (cmd : TransactionCommand)
    (accounts accounts1 : gmap string Account) (e e1 : Env) :
  Command.execute cmd accounts e = Some (true, accounts1, e1) ->
  exists ok accounts2 e2,
    Command.undo cmd accounts1 e1 = Some (ok, accounts2, e2)
    /\ match cmd with
       | DepositCommand r x =>
           exists a, accounts !! r = Some a /\ ok = negb (balance a + x <? x)%float
       | WithdrawCommand _ _ => ok = true
       | TransferCommand _ t x =>
           exists b1, accounts1 !! t = Some b1 /\ ok = negb (balance b1 <? x)%float
       end
    /\ (ok = false -> accounts2 = accounts1 /\ e2 = e1)
    /\ (ok = true ->
        forall r a, accounts !! r = Some a ->
          exists a2 txns,
            accounts2 !! r = Some a2
            /\ balance a2 =
                 foldl apply_primitive (balance a)
                   (legs_on r (legs_execute cmd ++ legs_undo cmd))
            /\ transaction_history a2 = (transaction_history a ++ txns)%list
            /\ map described txns =
                 map record_of (legs_on r (legs_execute cmd ++ legs_undo cmd))
            /\ length (transaction_history a2) =
                 length (transaction_history a)
                 + length (legs_on r (legs_execute cmd ++ legs_undo cmd))).
Proof.
  intros Hex. destruct (undo_after_execute _ _ _ _ _ Hex) as (ok & accounts2 & e2 & Hun & Hfail).
  exists ok, accounts2, e2. split; [assumption |].
  split; [exact (undo_result _ _ _ _ _ _ _ _ Hex Hun) |]. split; [assumption |].
  intros ->. intros r a Hr.
  destruct (execute_undo_effect _ _ _ _ _ _ _ Hex Hun r a Hr)
    as (a2 & Ha2 & txns & Hb & Hh & Hd & _).
  exists a2, txns. repeat split; try assumption.
  rewrite Hh, length_app. f_equal.
  rewrite <- (length_map described txns), Hd. apply length_map.
Qed.

(** In particular, on the account of a deposit that was undone. *)
Lemma deposit_then_undo (r : string) (x : float)
    (accounts accounts1 accounts2 : gmap string Account) (e e1 e2 : Env) (a : Account) :
  accounts !! r = Some a ->
  Command.execute (DepositCommand r x) accounts e = Some (true, accounts1, e1) ->
  Command.undo (DepositCommand r x) accounts1 e1 = Some (true, accounts2, e2) ->
  exists a2, accounts2 !! r = Some a2 /\ balance a2 = (balance a + x - x)%float.
Proof.
  intros Hr Hex Hun.
  destruct (execute_undo_effect _ _ _ _ _ _ _ Hex Hun r a Hr) as (a2 & Ha2 & txns & Hb & _).
  exists a2. split; [assumption |]. simpl in Hb. now rewrite String.eqb_refl in Hb.
Qed.

(** C4. A transfer between two different accounts: when the withdrawal from
    the source is refused ([amount <= 0] or [amount > balance]), [execute]
    returns false and nothing is touched; otherwise it returns true, the
    source has its balance minus the amount and one more WITHDRAWAL
    transaction, the destination has its balance plus the amount and one
    more DEPOSIT transaction, and no other account changes. *)
Theorem transfer_execute_spec (accounts : gmap string Account) (e : Env)
    (f t : string) (x : float) (a b : Account) :
  f <> t -> accounts !! f = Some a -> accounts !! t = Some b ->
  ((x <=? 0)%float = true \/ (balance a <? x)%float = true ->
     Command.execute (TransferCommand f t x) accounts e = Some (false, accounts, e))
  /\ ((x <=? 0)%float = false /\ (balance a <? x)%float = false ->
      exists accounts' e' a' b',
        Command.execute (TransferCommand f t x) accounts e = Some (true, accounts', e')
        /\ accounts' !! f = Some a' /\ accounts' !! t = Some b'
        /\ balance a' = (balance a - x)%float
        /\ transaction_history a' =
             (transaction_history a ++ [mkTransaction "WITHDRAWAL" x (clock (ticks e))])%list
        /\ balance b' = (balance b + x)%float
        /\ transaction_history b' =
             (transaction_history b ++ [mkTransaction "DEPOSIT" x (clock (S (ticks e)))])%list
        /\ (forall r, r <> f -> r <> t -> accounts' !! r = accounts !! r)
        /\ ticks e' = S (S (ticks e)))
  /\ (forall accounts' e',
        Command.execute (TransferCommand f t x) accounts e = Some (true, accounts', e') ->
        (x <=? 0)%float = false /\ (balance a <? x)%float = false).
Proof.
  intros Hne Hf Ht.
  assert (Hor : forall c d : bool, c || d = true <-> c = true \/ d = true)
    by (intros [] []; simpl; tauto).
  assert (Hrej : (x <=? 0)%float || (balance a <? x)%float = true ->
                 Command.execute (TransferCommand f t x) accounts e = Some (false, accounts, e)).
  { intros Hg. simpl. rewrite (call_lookup _ _ _ _ _ Hf).
    rewrite withdraw_rejected by assumption. simpl. now rewrite insert_id. }
  split; [intros Hg; apply Hrej; now apply Hor |]. split.
  - intros [Hle Hlt]. simpl. rewrite (call_lookup _ _ _ _ _ Hf).
    rewrite withdraw_accepted by (now rewrite Hle, Hlt). simpl.
    erewrite call_lookup by (rewrite lookup_insert_ne by assumption; exact Ht).
    rewrite deposit_accepted by assumption. simpl.
    eexists _, _, _, _. split; [reflexivity |].
    split; [rewrite lookup_insert_ne by congruence; apply lookup_insert_eq |].
    split; [apply lookup_insert_eq |].
    do 3 (split; [reflexivity |]).
    split; [simpl; now rewrite notify_all_ticks |]. split.
    + intros r Hrf Hrt. rewrite !lookup_insert_ne by congruence. reflexivity.
    + rewrite !notify_all_ticks. reflexivity.
  - intros accounts' e' Hex.
    destruct ((x <=? 0)%float || (balance a <? x)%float) eqn:Hg.
    + rewrite Hrej in Hex by reflexivity. discriminate.
    + now apply orb_false_iff in Hg.
Qed.

(** C10. A withdrawal that succeeds is of an amount that [deposit] accepts,
    so in [TransferCommand] the second leg succeeds whenever the first does:
    [execute] returns what the withdrawal from the source returned, [undo]
    what the withdrawal from the destination returned, and each either left
    everything untouched or ran both legs with success. The two accounts may
    be the same object. *)
Theorem transfer_never_partial (accounts : gmap string Account) (e : Env)
    (f t : string) (x : float) (a b : Account) :
  accounts !! f = Some a -> accounts !! t = Some b ->
  (forall (self other : Account) (e1 e2 : Env),
     fst (fst (Account.withdraw x self e1)) = true ->
     fst (fst (Account.deposit x other e2)) = true)
  /\ (exists ok accounts' e',
        Command.execute (TransferCommand f t x) accounts e = Some (ok, accounts', e')
        /\ ok = fst (fst (Account.withdraw x a e))
        /\ (ok = false -> accounts' = accounts /\ e' = e)
        /\ (ok = true ->
            exists accounts1 e1,
              Command.call f (Account.withdraw x) accounts e = Some (true, accounts1, e1)
              /\ Command.call t (Account.deposit x) accounts1 e1 = Some (true, accounts', e')))
  /\ (exists ok accounts' e',
        Command.undo (TransferCommand f t x) accounts e = Some (ok, accounts', e')
        /\ ok = fst (fst (Account.withdraw x b e))
        /\ (ok = false -> accounts' = accounts /\ e' = e)
        /\ (ok = true ->
            exists accounts1 e1,
              Command.call t (Account.withdraw x) accounts e = Some (true, accounts1, e1)
              /\ Command.call f (Account.deposit x) accounts1 e1 = Some (true, accounts', e'))).
Proof.
  intros Hf Ht.
  assert (Hlegs : forall (self other : Account) (e1 e2 : Env),
             fst (fst (Account.withdraw x self e1)) = true ->
             fst (fst (Account.deposit x other e2)) = true).
  { intros self other e1 e2 Hw. apply deposit_true. now apply withdraw_true_amount in Hw. }
  assert (Hgen : forall (r1 r2 : string) (a1 a2 : Account),
             accounts !! r1 = Some a1 -> accounts !! r2 = Some a2 ->
             exists ok accounts' e',
               match Command.call r1 (Account.withdraw x) accounts e with
               | Some (true, acc, e1) => Command.call r2 (Account.deposit x) acc e1
               | Some (false, acc, e1) => Some (false, acc, e1)
               | None => None
               end = Some (ok, accounts', e')
               /\ ok = fst (fst (Account.withdraw x a1 e))
               /\ (ok = false -> accounts' = accounts /\ e' = e)
               /\ (ok = true ->
                   exists accounts1 e1,
                     Command.call r1 (Account.withdraw x) accounts e = Some (true, accounts1, e1)
                     /\ Command.call r2 (Account.deposit x) accounts1 e1
                        = Some (true, accounts', e'))).
  { intros r1 r2 a1 a2 H1 H2. rewrite (call_lookup _ _ _ _ _ H1).
    destruct (fst (fst (Account.withdraw x a1 e))) eqn:Hw.
    - assert (is_Some (<[r1 := snd (fst (Account.withdraw x a1 e))]> accounts !! r2))
        as [a2' Ha2'].
      { destruct (decide (r1 = r2)) as [-> | Hne];
          [rewrite lookup_insert_eq | rewrite lookup_insert_ne by assumption]; eauto. }
      rewrite (call_lookup _ _ _ _ _ Ha2').
      rewrite (Hlegs a1 a2' e _ Hw).
      eexists _, _, _. split; [reflexivity |]. split; [reflexivity |].
      split; [discriminate |]. intros _. eexists _, _. split; [reflexivity |].
      now rewrite (call_lookup _ _ _ _ _ Ha2'), (Hlegs a1 a2' e _ Hw).
    - exists false, accounts, e. split.
      + pose proof (primitive_method_false (Wd x) a1) as Hfalse. simpl in Hfalse.
        destruct (Account.withdraw x a1 e) as [[ok a1'] e1] eqn:Heq. simpl in Hw. subst ok.
        destruct (Hfalse _ _ _ Heq) as [-> ->]. simpl. now rewrite insert_id.
      + split; [reflexivity |]. split; [tauto | discriminate]. }
  split; [exact Hlegs |]. split.
  - exact (Hgen f t a b Hf Ht).
  - exact (Hgen t f b a Ht Hf).
Qed.

End CommandProperties.

(** ** The undo stack *)

Section EngineProperties.
Context `{DateTime}.

Lemma legs_undo_refs (cmd : TransactionCommand) (accounts : gmap string Account) :
  Forall (fun leg => fst leg ∈ dom accounts) (legs_execute cmd) ->
  Forall (fun leg => fst leg ∈ dom accounts) (legs_undo cmd).
Proof.
  intros Hrefs.
  destruct cmd; simpl in *; repeat (apply Forall_cons in Hrefs as [? Hrefs]);
    repeat constructor; assumption.
Qed.






End EngineProperties.

(** ** The snapshot file *)

Section SnapshotProperties.
Context `{DateTime}.

(** [load_data] stops at the first defect of the document, with the
    exception of that defect; without a defect it loads the accounts. *)
Lemma load_transaction_defect (item : Typed TransactionData) :
  match transaction_defect item with
  | Some exn => BankDatabase.load_transaction item = inl exn
  | None => exists t, BankDatabase.load_transaction item = inr t
  end.
Proof.
  destruct item as [| [[ty |] [am |] [[| ts] |]]];
    unfold transaction_defect, BankDatabase.load_transaction; simpl; try reflexivity.
  destruct (fromisoformat ts); eauto.
Qed.

Lemma load_transactions_defect (txns : list (Typed TransactionData)) :
  match first_defect transaction_defect txns with
  | Some exn => BankDatabase.load_transactions txns = inl exn
  | None => exists ts, BankDatabase.load_transactions txns = inr ts
  end.
Proof.
  induction txns as [| item txns IH]; simpl; [eauto |].
  pose proof (load_transaction_defect item) as Hitem.
  destruct (transaction_defect item) as [exn |].
  - now rewrite Hitem.
  - destruct Hitem as [t ->]. simpl.
    destruct (first_defect transaction_defect txns) as [exn |].
    + now rewrite IH.
    + destruct IH as [ts ->]. simpl. eauto.
Qed.

Lemma load_account_defect (item : Typed AccountData) :
  match account_defect item with
  | Some exn => BankDatabase.load_account item = inl exn
  | None => exists a, BankDatabase.load_account item = inr a
  end.
Proof.
  destruct item as [| [[id |] [ow |] [[| ty] |] [b |] txns]];
    unfold account_defect, BankDatabase.load_account; simpl; try reflexivity;
    try (destruct id; reflexivity).
  all: destruct txns as [[| txns] |]; simpl; try reflexivity;
    try (destruct id; simpl; eauto; fail).
  all: pose proof (load_transactions_defect txns) as Htxns;
    destruct (first_defect transaction_defect txns) as [exn |];
    [now rewrite Htxns | destruct Htxns as [ts ->]; simpl; destruct id; eauto].
Qed.

Lemma load_accounts_defect (records : list (Typed AccountData)) :
  forall accounts : gmap string Account,
    match first_defect account_defect records with
    | Some exn => BankDatabase.load_accounts records accounts = inl exn
    | None => exists accounts', BankDatabase.load_accounts records accounts = inr accounts'
    end.
Proof.
  induction records as [| item records IH]; intros accounts; simpl; [eauto |].
  pose proof (load_account_defect item) as Hitem.
  destruct (account_defect item) as [exn |].
  - now rewrite Hitem.
  - destruct Hitem as [a ->]. simpl. apply IH.
Qed.

Lemma load_body_defect (data : Document) (accounts : gmap string Account) :
  match document_defect data with
  | Some exn => BankDatabase.load_body (Json data) accounts = inl exn
  | None => exists accounts', BankDatabase.load_body (Json data) accounts = inr accounts'
  end.
Proof.
  destruct data as [[[| records] |]]; unfold document_defect; simpl; try reflexivity.
  apply load_accounts_defect.
Qed.

(** In a complete document the only defect there can be is a timestamp that
    cannot be read. *)
Lemma transaction_complete_defect (item : Typed TransactionData) :
  transaction_complete item = true ->
  transaction_defect item = if timestamp_readable item then None else Some ValueError.
Proof.
  destruct item as [| [[ty |] [am |] [[| ts] |]]];
    unfold transaction_complete, transaction_defect, timestamp_readable; simpl;
    try discriminate.
  intros _. now destruct (fromisoformat ts).
Qed.

Lemma transactions_complete_defect (txns : list (Typed TransactionData)) :
  forallb transaction_complete txns = true ->
  first_defect transaction_defect txns
    = if forallb timestamp_readable txns then None else Some ValueError.
Proof.
  induction txns as [| item txns IH]; simpl; [reflexivity |].
  intros [Hc Hrest]%andb_true_iff.
  rewrite (transaction_complete_defect item Hc), (IH Hrest).
  now destruct (timestamp_readable item).
Qed.

Lemma account_complete_defect (item : Typed AccountData) :
  account_complete item = true ->
  account_defect item = if account_readable item then None else Some ValueError.
Proof.
  destruct item as [| [[[| id] |] [ow |] [[| ty] |] [b |] [[| txns] |]]];
    unfold account_complete, account_defect, account_readable; simpl;
    try discriminate; try reflexivity.
  all: intros Hc; rewrite (transactions_complete_defect txns Hc);
    now destruct (forallb timestamp_readable txns).
Qed.

Lemma accounts_complete_defect (records : list (Typed AccountData)) :
  forallb account_complete records = true ->
  first_defect account_defect records
    = if forallb account_readable records then None else Some ValueError.
Proof.
  induction records as [| item records IH]; simpl; [reflexivity |].
  intros [Hc Hrest]%andb_true_iff.
  rewrite (account_complete_defect item Hc), (IH Hrest).
  now destruct (account_readable item).
Qed.

Lemma document_complete_defect (data : Document) :
  document_complete data = true ->
  document_defect data = if timestamps_readable data then None else Some ValueError.
Proof.
  destruct data as [[[| records] |]];
    unfold document_complete, document_defect, timestamps_readable; simpl;
    try discriminate.
  apply accounts_complete_defect.
Qed.

(** The exceptions of a defect: [KeyError], [ValueError], [TypeError] and
    [AttributeError]. *)
Lemma first_defect_kinds {A} (P : Exception -> Prop) (defect : A -> option Exception)
    (items : list A) (exn : Exception) :
  (forall item exn, defect item = Some exn -> P exn) ->
  first_defect defect items = Some exn -> P exn.
Proof.
  intros Hitem. induction items as [| item items IH]; simpl; [discriminate |].
  destruct (defect item) as [exn' |] eqn:Hd; [| exact IH].
  intros [= <-]. now apply (Hitem item).
Qed.

Lemma transaction_defect_kinds (item : Typed TransactionData) (exn : Exception) :
  transaction_defect item = Some exn ->
  (exists key, exn = KeyError key) \/ exn ∈ [ValueError; TypeError; AttributeError].
Proof.
  destruct item as [| [[ty |] [am |] [[| ts] |]]]; unfold transaction_defect; simpl;
    try (intros [= <-]; first [left; eexists; reflexivity | right; set_solver]).
  destruct (fromisoformat ts); [discriminate |]. intros [= <-]. right. set_solver.
Qed.

Lemma account_defect_kinds (item : Typed AccountData) (exn : Exception) :
  account_defect item = Some exn ->
  (exists key, exn = KeyError key) \/ exn ∈ [ValueError; TypeError; AttributeError].
Proof.
  destruct item as [| [[id |] [ow |] [[| ty] |] [b |] [[| txns] |]]];
    unfold account_defect; simpl;
    try (intros [= <-]; first [left; eexists; reflexivity | right; set_solver]).
  all: try (destruct id; [intros [= <-]; right; set_solver | discriminate]).
  all: destruct (first_defect transaction_defect txns) as [exn' |] eqn:Hd;
    [ intros [= <-];
      exact (first_defect_kinds _ _ _ _ transaction_defect_kinds Hd)
    | destruct id; [intros [= <-]; right; set_solver | discriminate] ].
Qed.

Lemma document_defect_kinds (data : Document) (exn : Exception) :
  document_defect data = Some exn ->
  (exists key, exn = KeyError key) \/ exn ∈ [ValueError; TypeError; AttributeError].
Proof.
  destruct data as [[[| records] |]]; unfold document_defect; simpl.
  - intros [= <-]. right. set_solver.
  - apply (first_defect_kinds _ _ _ _ account_defect_kinds).
  - intros [= <-]. left. eexists. reflexivity.
Qed.

(** A document whose required fields are all there, with timestamps that
    can be read, is loaded without a warning. *)
Lemma load_data_complete (data : Document) (accounts : gmap string Account) (e : Env) :
  timestamps_readable data = true -> document_complete data = true ->
  exists accounts', BankDatabase.load_data (Json data) accounts e = inr (accounts', e).
Proof.
  intros Hts Hc. pose proof (load_body_defect data accounts) as Hbody.
  rewrite (document_complete_defect data Hc), Hts in Hbody.
  destruct Hbody as [accounts' Hbody].
  exists accounts'. unfold BankDatabase.load_data. now rewrite Hbody.
Qed.

(** C8. What [load_data] does with each failure of a load.

    Handled, with a warning printed and an empty set of accounts, whatever
    accounts were there: no file; text that [json.load] cannot decode; and a
    document whose first defect, in the order of reading, is a required
    field that is missing (the [accounts] of the document, the [account_id],
    [owner] or [balance] of an account, the [type], [amount] or [timestamp]
    of a transaction).

    Not handled, the exception leaves [load_data]: a file whose bytes are no
    text, a JSON value that is no object, and a document whose first defect
    is a timestamp that cannot be read or a value of another type than the
    one expected, also when a required field is missing further on.

    A document without a defect is loaded without a warning, and an account
    loaded from a record without [account_type] has the type savings, with
    the savings interest. *)
Theorem load_data_failures :
  (forall (accounts : gmap string Account) (e : Env),
     BankDatabase.load_data NoFile accounts e = inr (∅, print (Warning FileNotFoundError) e))
  /\ (forall (accounts : gmap string Account) (e : Env),
        BankDatabase.load_data Undecodable accounts e
          = inr (∅, print (Warning JSONDecodeError) e))
  /\ (forall (data : Document) (key : string) (accounts : gmap string Account) (e : Env),
        document_defect data = Some (KeyError key) ->
        BankDatabase.load_data (Json data) accounts e
          = inr (∅, print (Warning (KeyError key)) e))
  /\ (forall (accounts : gmap string Account) (e : Env),
        BankDatabase.load_data NotText accounts e = inl UnicodeDecodeError
        /\ BankDatabase.load_data JsonOther accounts e = inl TypeError)
  /\ (forall (data : Document) (exn : Exception) (accounts : gmap string Account) (e : Env),
        document_defect data = Some exn ->
        (forall key, exn <> KeyError key) ->
        exn ∈ [ValueError; TypeError; AttributeError]
        /\ BankDatabase.load_data (Json data) accounts e = inl exn)
  /\ (forall (data : Document) (accounts : gmap string Account) (e : Env),
        document_defect data = None ->
        exists accounts', BankDatabase.load_data (Json data) accounts e = inr (accounts', e))
  /\ (forall (acct_data : AccountData) (a : Account),
        data_account_type acct_data = None ->
        BankDatabase.load_account (Is acct_data) = inr a ->
        account_type a = "savings" /\ interest_strategy a = SavingsInterest).
Proof.
  split; [reflexivity |]. split; [reflexivity |]. split; [| split; [| split; [| split]]].
  - intros data key accounts e Hd. pose proof (load_body_defect data accounts) as Hbody.
    rewrite Hd in Hbody. unfold BankDatabase.load_data. now rewrite Hbody.
  - intros accounts e. split; reflexivity.
  - intros data exn accounts e Hd Hkey. pose proof (load_body_defect data accounts) as Hbody.
    rewrite Hd in Hbody. unfold BankDatabase.load_data. rewrite Hbody.
    destruct (document_defect_kinds data exn Hd) as [[key ->] | Hkinds];
      [now destruct (Hkey key) |].
    split; [assumption |].
    apply elem_of_cons in Hkinds as [-> | Hkinds]; [reflexivity |].
    apply elem_of_cons in Hkinds as [-> | Hkinds]; [reflexivity |].
    apply list_elem_of_singleton in Hkinds as ->. reflexivity.
  - intros data accounts e Hd. pose proof (load_body_defect data accounts) as Hbody.
    rewrite Hd in Hbody. destruct Hbody as [accounts' Hbody].
    exists accounts'. unfold BankDatabase.load_data. now rewrite Hbody.
  - intros [id ow ty b txns] a. simpl. intros ->.
    unfold BankDatabase.load_account. simpl.
    destruct id as [id |]; [| discriminate]. destruct ow as [ow |]; [| discriminate].
    destruct b as [b |]; [| discriminate]. simpl.
    destruct (BankDatabase.bind (BankDatabase.iterate (default (Items []) txns))
                BankDatabase.load_transactions); [discriminate |].
    simpl. destruct id as [| id]; [discriminate |]. intros [= <-]. split; reflexivity.
Qed.

(** What [save_data] wrote is read back as it was. *)
Lemma load_dump_transactions (txns : list Transaction) :
  (forall d : datetime, fromisoformat (isoformat d) = Some d) ->
  BankDatabase.load_transactions (map (fun txn => Is (BankDatabase.dump_transaction txn)) txns)
    = inr txns.
Proof.
  intros Hiso. induction txns as [| [ty am t] txns IH]; simpl; [reflexivity |].
  unfold BankDatabase.load_transaction. simpl. rewrite Hiso. simpl. now rewrite IH.
Qed.

Lemma load_dump_account (a : Account) :
  (forall d : datetime, fromisoformat (isoformat d) = Some d) ->
  BankDatabase.load_account (Is (BankDatabase.dump_account a)) = inr (restored a).
Proof.
  intros Hiso. unfold BankDatabase.load_account. simpl.
  now rewrite (load_dump_transactions _ Hiso).
Qed.

Lemma load_dump_accounts (l : list Account) :
  (forall d : datetime, fromisoformat (isoformat d) = Some d) ->
  forall accounts : gmap string Account,
    BankDatabase.load_accounts (map (fun a => Is (BankDatabase.dump_account a)) l) accounts
      = inr (foldl (fun m a => <[account_id a := restored a]> m) accounts l).
Proof.
  intros Hiso. induction l as [| a l IH]; intros accounts; [reflexivity |].
  cbn [map BankDatabase.load_accounts foldl].
  rewrite (load_dump_account a Hiso). simpl. apply IH.
Qed.

(** Filing a list of accounts one after the other gives the map of the
    list, the last account filed under an id being the one that stays. *)
Lemma foldl_insert_list_to_map (l : list Account) :
  forall accounts : gmap string Account,
    foldl (fun m a => <[account_id a := restored a]> m) accounts l
      = list_to_map (rev ((fun a => (account_id a, restored a)) <$> l)) ∪ accounts.
Proof.
  induction l as [| a l IH]; intros accounts; simpl.
  - now rewrite (left_id_L ∅ (∪)).
  - rewrite IH, list_to_map_app. simpl.
    rewrite <- (assoc_L (∪)). f_equal.
    rewrite insert_empty. apply insert_union_singleton_l.
Qed.

Lemma load_save (accounts : gmap string Account) (e : Env) :
  (forall d : datetime, fromisoformat (isoformat d) = Some d) ->
  filed_by_id accounts ->
  BankDatabase.load_data (BankDatabase.save_data accounts) ∅ e = inr (restored <$> accounts, e).
Proof.
  intros Hiso Hfiled. unfold BankDatabase.load_data, BankDatabase.save_data. simpl.
  rewrite (load_dump_accounts _ Hiso), foldl_insert_list_to_map, (right_id_L ∅ (∪)).
  do 2 f_equal.
  assert (Hpairs : (fun a => (account_id a, restored a)) <$> (map_to_list accounts).*2
                   = prod_map id restored <$> map_to_list accounts).
  { rewrite <- list_fmap_compose. apply Forall_fmap_ext_1.
    apply Forall_forall. intros [k a] Hin. apply elem_of_map_to_list in Hin.
    apply Hfiled in Hin. simpl in *. now rewrite Hin. }
  rewrite Hpairs, <- map_to_list_fmap.
  rewrite <- (list_to_map_proper (map_to_list (restored <$> accounts))).
  - apply list_to_map_to_list.
  - apply NoDup_fst_map_to_list.
  - apply Permutation_rev.
Qed.

(** C9. [save_data] and then [load_data] at the next start (on what the
    datetime library writes and reads back, from a database where every
    account is filed under its id): no warning, the same ids, and under
    each id an account with the id, owner, type, balance and transactions,
    in their order, of the account that was saved. *)
Theorem save_then_load (accounts : gmap string Account) (e : Env) :
  (forall d : datetime, fromisoformat (isoformat d) = Some d) ->
  filed_by_id accounts ->
  exists accounts',
    BankDatabase.load_data (BankDatabase.save_data accounts) ∅ e = inr (accounts', e)
    /\ dom accounts' = dom accounts
    /\ forall k a, accounts !! k = Some a ->
         exists a',
           accounts' !! k = Some a'
           /\ account_id a' = account_id a
           /\ owner a' = owner a
           /\ account_type a' = account_type a
           /\ balance a' = balance a
           /\ transaction_history a' = transaction_history a.
Proof.
  intros Hiso Hfiled. exists (restored <$> accounts).
  split; [now apply load_save |]. split; [apply dom_fmap_L |].
  intros k a Hk. exists (restored a). rewrite lookup_fmap, Hk. repeat split.
Qed.

(** The database stays filed by id: [add_account] and the loop of
    [load_data] file each account under its id. *)
Lemma add_account_filed (account : Account) (accounts : gmap string Account) :
  filed_by_id accounts -> filed_by_id (BankDatabase.add_account account accounts).
Proof. intros Hf. now apply map_Forall_insert_2. Qed.

Lemma load_accounts_filed (records : list (Typed AccountData)) :
  forall accounts accounts' : gmap string Account,
    filed_by_id accounts ->
    BankDatabase.load_accounts records accounts = inr accounts' ->
    filed_by_id accounts'.
Proof.
  induction records as [| acct_data records IH]; intros accounts accounts' Hf; simpl.
  - now intros [= <-].
  - destruct (BankDatabase.load_account acct_data) as [exn | a]; simpl; [discriminate |].
    apply IH. now apply map_Forall_insert_2.
Qed.

End SnapshotProperties.

(** ** Runs of the commands *)

Section CommandRuns.
Local Existing Instance Seconds.

(** [execute_then_undo] on a deposit of 0.4 into a balance of 0.1: the undo
    succeeds, and leaves [(0.1 + 0.4) - 0.4] and two transactions. *)
Lemma execute_then_undo_witness :
  exists accounts2 e2 a2,
    Command.undo (DepositCommand "A" 0.4) {["A" := alice_after_deposit]} env_after_deposit
      = Some (true, accounts2, e2)
    /\ accounts2 !! "A" = Some a2
    /\ balance a2 = (0.1 + 0.4 - 0.4)%float
    /\ length (transaction_history a2) = 2.
Proof.
  assert (Hex : Command.execute (DepositCommand "A" 0.4) {["A" := alice 0.1]} quiet
                = Some (true, {["A" := alice_after_deposit]}, env_after_deposit))
    by reflexivity.
  destruct (execute_then_undo (DepositCommand "A" 0.4) {["A" := alice 0.1]}
              {["A" := alice_after_deposit]} quiet env_after_deposit Hex)
    as (ok & accounts2 & e2 & Hun & (a & Ha & Hok) & _ & Htrue).
  rewrite lookup_singleton_eq in Ha. injection Ha as <-.
  assert (ok = true) as -> by (rewrite Hok; reflexivity).
  destruct (Htrue eq_refl "A" (alice 0.1) eq_refl) as (a2 & txns & Ha2 & Hb & _ & _ & Hlen).
  exists accounts2, e2, a2. repeat split; assumption.
Defined.

(** C1 fails as stated, in two ways. A deposit of 0.4 into a balance of 0.1
    succeeds, its immediate undo succeeds, and the balance is then
    0.09999999999999998, not the 0.1 from before. A deposit of 50 into a
    balance of -100 (a balance that [load_data] takes from the file as it
    is) succeeds, and its immediate undo fails, the 50 being greater than
    the -50 on the account: the balance stays at -50. *)
Lemma immediate_undo_does_not_restore :
  (Command.execute (DepositCommand "A" 0.4) {["A" := alice 0.1]} quiet
     = Some (true, {["A" := alice_after_deposit]}, env_after_deposit)
   /\ (exists accounts2 e2,
         Command.undo (DepositCommand "A" 0.4) {["A" := alice_after_deposit]}
           env_after_deposit = Some (true, accounts2, e2)
         /\ balance <$> accounts2 !! "A" = Some 0.09999999999999998%float)
   /\ (0.09999999999999998 =? balance (alice 0.1))%float = false)
  /\ (exists accounts1 e1,
        Command.execute (DepositCommand "A" 50) {["A" := alice (-100)]} quiet
          = Some (true, accounts1, e1)
        /\ Command.undo (DepositCommand "A" 50) accounts1 e1 = Some (false, accounts1, e1)
        /\ balance <$> accounts1 !! "A" = Some (-50)%float
        /\ ((-50) =? balance (alice (-100)))%float = false).
Proof.
  split.
  - split; [reflexivity |]. split; [| reflexivity]. eexists _, _. split; reflexivity.
  - eexists _, _. split; [reflexivity |]. split; [| split; reflexivity].
    vm_compute. reflexivity.
Qed.

(** [transfer_execute_spec] on a transfer of 30 from Alice (100) to Bob (50). *)
Lemma transfer_execute_spec_witness :
  exists accounts' e',
    Command.execute (TransferCommand "A" "B" 30) two_accounts quiet = Some (true, accounts', e')
    /\ balance <$> accounts' !! "A" = Some 70%float
    /\ balance <$> accounts' !! "B" = Some 80%float.
Proof.
  destruct (transfer_execute_spec two_accounts quiet "A" "B" 30 (alice 100) (bob 50))
    as (_ & Hok & _); [discriminate | reflexivity | reflexivity |].
  destruct Hok as (accounts' & e' & a' & b' & Hex & Ha & Hb & Hba & _ & Hbb & _);
    [split; reflexivity |].
  exists accounts', e'. split; [exact Hex |].
  rewrite Ha, Hb. simpl. rewrite Hba, Hbb. split; reflexivity.
Defined.

(** [transfer_never_partial] on a transfer of 30 from Alice (100) to Bob (50). *)
Lemma transfer_never_partial_witness :
  exists ok accounts' e',
    Command.execute (TransferCommand "A" "B" 30) two_accounts quiet = Some (ok, accounts', e')
    /\ ok = fst (fst (Account.withdraw 30 (alice 100) quiet)).
Proof.
  destruct (transfer_never_partial two_accounts quiet "A" "B" 30 (alice 100) (bob 50))
    as (_ & (ok & accounts' & e' & Hex & Hok & _) & _); [reflexivity | reflexivity |].
  exists ok, accounts', e'. split; assumption.
Defined.


(** The session undone: the three undos succeed, the balances are back at 0,
    and a fourth undo finds the stack empty. *)
Example session_undone :
  exists s,
    InteractiveBankSystem.steps
      [UndoLastTransaction; UndoLastTransaction; UndoLastTransaction; UndoLastTransaction]
      after3 = Some s
    /\ undo_stack s = []
    /\ balance <$> database s !! "A" = Some 0%float
    /\ balance <$> database s !! "B" = Some 0%float
    /\ last (stdout (env s)) = Some (Print "No transactions to undo!").
Proof. eexists. split; [reflexivity |]. repeat split. Qed.

(** An undo that fails: deposits of 0.1 and of 0.4, then two undos. The
    first leaves 0.09999999999999998, so the withdrawal of 0.1 that undoes
    the first deposit is refused; the command is popped all the same. *)
Example failed_undo_is_consumed :
  exists s,
    InteractiveBankSystem.steps
      [CreateAccount "A" "alice" "1"; Deposit "A" (Some 0.1%float);
       Deposit "A" (Some 0.4%float); UndoLastTransaction; UndoLastTransaction]
      fresh = Some s
    /\ undo_stack s = []
    /\ balance <$> database s !! "A" = Some 0.09999999999999998%float
    /\ last (stdout (env s)) = Some (Print "Error: Failed to undo transaction!").
Proof. eexists. split; [reflexivity |]. repeat split. Qed.

End CommandRuns.

(** ** Runs of the snapshot file *)

Section SnapshotRuns.
Local Existing Instance Seconds.

Lemma Seconds_roundtrip (d : nat) : fromisoformat (isoformat d) = Some d.
Proof.
  simpl. rewrite NilEmpty.usu. simpl. f_equal. apply DecimalNat.Unsigned.of_to.
Qed.

Lemma saved_accounts_filed : filed_by_id saved_accounts.
Proof.
  unfold saved_accounts.
  repeat (apply map_Forall_insert_2; [reflexivity |]). apply map_Forall_empty.
Qed.

(** [save_then_load] on a database with the accounts of Alice, after her
    deposit, and of Bob. *)
Lemma save_then_load_witness :
  exists accounts',
    BankDatabase.load_data (BankDatabase.save_data saved_accounts) ∅ quiet
      = inr (accounts', quiet)
    /\ dom accounts' = dom saved_accounts
    /\ forall k a, saved_accounts !! k = Some a ->
         exists a',
           accounts' !! k = Some a'
           /\ account_id a' = account_id a
           /\ owner a' = owner a
           /\ account_type a' = account_type a
           /\ balance a' = balance a
           /\ transaction_history a' = transaction_history a.
Proof.
  apply (save_then_load saved_accounts quiet).
  - exact Seconds_roundtrip.
  - exact saved_accounts_filed.
Defined.

(** A record without [account_type] is loaded as a savings account, and a
    record without [owner] empties the database with a warning, also when
    accounts were loaded before it. *)
Example load_without_account_type :
  BankDatabase.load_data (Json (mkDocument (Some (Items [record_without_type])))) ∅ quiet
    = inr ({["C" := @mkAccount Seconds "C" "carol" "savings" 7 [] [] SavingsInterest]}, quiet).
Proof. reflexivity. Qed.

Example load_without_owner :
  BankDatabase.load_data
    (Json (mkDocument (Some (Items [record_without_type; record_without_owner])))) ∅ quiet
    = inr (∅, print (Warning (KeyError "owner")) quiet).
Proof. reflexivity. Qed.

(** A timestamp that [fromisoformat] rejects is none of the failures that
    [load_data] handles: the [ValueError] leaves [load_data]. *)
Example load_unreadable_timestamp :
  BankDatabase.load_data (Json (mkDocument (Some (Items [record_with_bad_timestamp])))) ∅ quiet
    = inl ValueError.
Proof. reflexivity. Qed.

(** Failures of a load that are not handled. A file whose bytes are no
    text and a JSON value that is no object are malformed content, and a
    document with a record without [owner] has a required field missing; for
    none of them does [load_data] print a warning and give an empty set of
    accounts: the exception leaves it. The record without [owner] comes
    after a record whose timestamp cannot be read, which is met first. *)
Lemma load_failure_not_handled :
  BankDatabase.load_data NotText ∅ quiet = inl UnicodeDecodeError
  /\ BankDatabase.load_data JsonOther ∅ quiet = inl TypeError
  /\ document_complete document_unreadable_then_incomplete = false
  /\ BankDatabase.load_body (Json (mkDocument (Some (Items [record_without_owner])))) ∅
       = inl (KeyError "owner")
  /\ BankDatabase.load_data (Json document_unreadable_then_incomplete) ∅ quiet
       = inl ValueError.
Proof. repeat split. Qed.

(** The same two records in the other order: the missing [owner] is met
    first, and the failure is handled. *)
Example load_incomplete_then_unreadable :
  document_defect document_incomplete_then_unreadable = Some (KeyError "owner")
  /\ BankDatabase.load_data (Json document_incomplete_then_unreadable) ∅ quiet
       = inr (∅, print (Warning (KeyError "owner")) quiet).
Proof. split; reflexivity. Qed.

(** A number where the list of transactions is expected: the [TypeError] of
    the loop leaves [load_data]. *)
Example load_number_for_transactions :
  BankDatabase.load_data
    (Json (mkDocument (Some (Items [record_with_number_for_transactions])))) ∅ quiet
    = inl TypeError.
Proof. reflexivity. Qed.

(** [load_data_failures] on the two documents: the missing [owner] met first
    is handled, the unreadable timestamp met first is not. *)
Lemma load_data_failures_witness :
  BankDatabase.load_data (Json document_incomplete_then_unreadable) ∅ quiet
    = inr (∅, print (Warning (KeyError "owner")) quiet)
  /\ BankDatabase.load_data (Json document_unreadable_then_incomplete) ∅ quiet
       = inl ValueError.
Proof.
  destruct (@load_data_failures Seconds) as (_ & _ & Hkey & _ & Hfatal & _).
  split.
  - apply Hkey. reflexivity.
  - apply (Hfatal document_unreadable_then_incomplete ValueError); [reflexivity | discriminate].
Defined.

(** A negative balance comes in through the snapshot file, where
    [load_data] assigns it as it is. The menu then reports an interest of -2
    as applied, with the balance still at -100. *)
Example interest_reported_but_not_applied :
  exists accounts,
    BankDatabase.load_data (Json (mkDocument (Some (Items [record_overdrawn])))) ∅ quiet
      = inr (accounts, quiet)
    /\ balance <$> accounts !! "F" = Some (-100)%float
    /\ stdout (env (InteractiveBankSystem.apply_interest "F" (mkSystem accounts [] quiet)))
         = [PrintInterest (-2) (-100)]
    /\ balance <$> database (InteractiveBankSystem.apply_interest "F"
                               (mkSystem accounts [] quiet)) !! "F"
         = Some (-100)%float.
Proof. eexists. split; [reflexivity |]. repeat split. Qed.

End SnapshotRuns.

(** * More of the program *)

(** ** Interest, strategies and observers *)

Section MoreAccountProperties.
Context `{DateTime}.

(** X1. [apply_interest] returns the interest of the strategy on the
    balance. When the interest equals 0, or is negative, the account and the
    environment are as before; otherwise the interest is deposited: the
    balance grows by it and one DEPOSIT transaction of that amount is
    appended. On a balance of 0 every strategy gives 0, and nothing happens. *)
Theorem apply_interest_spec (self : Account) (e : Env) :
  let interest := calculate_interest (interest_strategy self) (balance self) in
  ((interest =? 0)%float = true \/ (interest <=? 0)%float = true ->
     Account.apply_interest self e = (interest, self, e))
  /\ ((interest =? 0)%float = false /\ (interest <=? 0)%float = false ->
      exists self' e',
        Account.apply_interest self e = (interest, self', e')
        /\ balance self' = (balance self + interest)%float
        /\ transaction_history self' =
             transaction_history self ++ [mkTransaction "DEPOSIT" interest (clock (ticks e))]
        /\ ticks e' = S (ticks e))
  /\ (balance self = 0%float -> Account.apply_interest self e = (0%float, self, e)).
Proof.
  intros interest.
  assert (Hnone : (interest =? 0)%float = true \/ (interest <=? 0)%float = true ->
                  Account.apply_interest self e = (interest, self, e)).
  { unfold Account.apply_interest. fold interest. intros [Hz | Hle].
    - now rewrite Hz.
    - destruct (interest =? 0)%float; simpl; [reflexivity |].
      now rewrite deposit_rejected by assumption. }
  split; [exact Hnone |]. split.
  - intros [Hz Hle]. unfold Account.apply_interest. fold interest. rewrite Hz. simpl.
    rewrite deposit_accepted by assumption.
    eexists _, _. split; [reflexivity |]. repeat split. apply notify_all_ticks.
  - intros Hb. assert (Hi : interest = 0%float).
    { unfold interest. rewrite Hb. now destruct (interest_strategy self). }
    rewrite <- Hi at 1. apply Hnone. left. now rewrite Hi.
Qed.

Lemma lower_ascii_idem (c : ascii) : lower_ascii (lower_ascii c) = lower_ascii c.
Proof. destruct c as [[] [] [] [] [] [] [] []]; reflexivity. Qed.

Lemma lower_idem (s : string) : lower (lower s) = lower s.
Proof. induction s as [| c s IH]; simpl; [reflexivity |]. now rewrite lower_ascii_idem, IH. Qed.

(** X2. On an account type made of ASCII characters, the constructor of
    [Account] picks the strategy by the type in lower case: a type that reads
    checking or loan, in any mix of upper and lower case, gets that strategy,
    and every other type gets the savings one. The account starts with a
    balance of 0, no transaction and no observer. *)
Theorem init_strategy (id ow ty : string) :
  ascii_only ty = true ->
  interest_strategy (Account.init id ow ty) = interest_strategy (Account.init id ow (lower ty))
  /\ (lower ty = "checking" -> interest_strategy (Account.init id ow ty) = CheckingInterest)
  /\ (lower ty = "loan" -> interest_strategy (Account.init id ow ty) = LoanInterest)
  /\ (lower ty <> "checking" -> lower ty <> "loan" ->
      interest_strategy (Account.init id ow ty) = SavingsInterest)
  /\ balance (Account.init id ow ty) = 0%float
  /\ transaction_history (Account.init id ow ty) = []
  /\ observers (Account.init id ow ty) = [].
Proof.
  intros _. simpl. unfold strategy_for. rewrite lower_idem.
  split; [reflexivity |]. split; [now intros -> |]. split; [now intros -> |].
  split; [| repeat split].
  intros Hc Hl.
  destruct (String.eqb_spec (lower ty) "savings"); [reflexivity |].
  destruct (String.eqb_spec (lower ty) "checking"); [contradiction |].
  destruct (String.eqb_spec (lower ty) "loan"); [contradiction | reflexivity].
Qed.

Lemma notify_all_stdout (account : Account) (txn : Transaction) (e : Env) :
  stdout (Observer.notify_all account txn e)
    = stdout e ++ map (fun _ => TransactionLog (account_id account) txn) (observers account).
Proof.
  unfold Observer.notify_all. generalize (observers account) as os.
  intros os. revert e. induction os as [| o os IH]; intros e; simpl.
  - now rewrite app_nil_r.
  - rewrite IH. destruct o. simpl. now rewrite <- app_assoc.
Qed.

(** X3. What [deposit] and [withdraw] print: nothing when they refuse the
    amount; otherwise one line of the logger for each observer attached to
    the account, in the order of attachment, all for the transaction just
    recorded, so an observer attached twice prints twice. [attach] adds the
    observer at the end and changes nothing else. *)
Theorem primitives_notify (self : Account) (amount : float) (e : Env) :
  ((amount <=? 0)%float = true -> stdout (snd (Account.deposit amount self e)) = stdout e)
  /\ ((amount <=? 0)%float = false ->
      stdout (snd (Account.deposit amount self e))
        = stdout e
          ++ map (fun _ => TransactionLog (account_id self)
                             (mkTransaction "DEPOSIT" amount (clock (ticks e))))
                 (observers self))
  /\ ((amount <=? 0)%float || (balance self <? amount)%float = true ->
      stdout (snd (Account.withdraw amount self e)) = stdout e)
  /\ ((amount <=? 0)%float || (balance self <? amount)%float = false ->
      stdout (snd (Account.withdraw amount self e))
        = stdout e
          ++ map (fun _ => TransactionLog (account_id self)
                             (mkTransaction "WITHDRAWAL" amount (clock (ticks e))))
                 (observers self))
  /\ (forall o : TransactionObserver,
        observers (Account.attach o self) = observers self ++ [o]
        /\ balance (Account.attach o self) = balance self
        /\ transaction_history (Account.attach o self) = transaction_history self).
Proof.
  split; [intros Hg; now rewrite deposit_rejected |].
  split; [intros Hg; rewrite deposit_accepted by assumption; simpl;
          now rewrite notify_all_stdout |].
  split; [intros Hg; now rewrite withdraw_rejected |].
  split; [intros Hg; rewrite withdraw_accepted by assumption; simpl;
          now rewrite notify_all_stdout |].
  intros o. repeat split.
Qed.

End MoreAccountProperties.

(** ** The database and the creation of accounts *)

Section DatabaseProperties.
Context `{DateTime}.

(** X4. [add_account] files the account under its id, replacing an account
    that was there under that id and leaving the other ids as they were;
    [get_account] finds it; [get_all_accounts] lists each account of the
    database once. *)
Theorem add_then_get (account : Account) (accounts : gmap string Account) :
  BankDatabase.get_account (account_id account) (BankDatabase.add_account account accounts)
    = Some account
  /\ (forall id, id <> account_id account ->
        BankDatabase.get_account id (BankDatabase.add_account account accounts)
          = BankDatabase.get_account id accounts)
  /\ (forall other : Account,
        account_id other = account_id account ->
        BankDatabase.add_account account (BankDatabase.add_account other accounts)
          = BankDatabase.add_account account accounts)
  /\ (forall a : Account,
        a ∈ BankDatabase.get_all_accounts accounts
        <-> exists id, BankDatabase.get_account id accounts = Some a)
  /\ length (BankDatabase.get_all_accounts accounts) = size accounts.
Proof.
  unfold BankDatabase.get_account, BankDatabase.add_account, BankDatabase.get_all_accounts.
  split; [apply lookup_insert_eq |].
  split; [intros id Hne; now apply lookup_insert_ne |].
  split; [intros other ->; apply insert_insert_eq |].
  split.
  - intros a. rewrite list_elem_of_fmap. split.
    + intros ([k a'] & -> & Hin). exists k. now apply elem_of_map_to_list.
    + intros [k Hk]. exists (k, a). split; [reflexivity |]. now apply elem_of_map_to_list.
  - rewrite length_fmap. apply length_map_to_list.
Qed.

End DatabaseProperties.

(** ** Runs of the menu *)

Section RunProperties.
Context `{DateTime}.

Lemma grows_refl (a : Account) : grows a a.
Proof. repeat split. exists []. now rewrite app_nil_r. Qed.

Lemma grows_trans (a b c : Account) : grows a b -> grows b c -> grows a c.
Proof.
  intros (Hi1 & Ho1 & Ht1 & Hb1 & Hs1 & txns1 & Hh1 & Hr1)
         (Hi2 & Ho2 & Ht2 & Hb2 & Hs2 & txns2 & Hh2 & Hr2).
  repeat split; try congruence.
  exists (txns1 ++ txns2). split.
  - now rewrite Hh2, Hh1, app_assoc.
  - now apply Forall_app.
Qed.

(** Both primitives, whatever they return, leave a later state of the account. *)
Lemma primitive_grows (p : Primitive) (self self' : Account) (e e' : Env) (ok : bool) :
  primitive_method p self e = (ok, self', e') -> grows self self'.
Proof.
  destruct ok; intros Hm.
  - assert (Hamount : (snd (record_of p) <=? 0)%float = false).
    { destruct p as [x | x]; simpl in *.
      - apply (deposit_true_amount x self e). now rewrite Hm.
      - apply (withdraw_true_amount x self e). now rewrite Hm. }
    apply primitive_method_true in Hm as [-> _]. repeat split. simpl.
    eexists. split; [reflexivity |]. constructor; [| constructor].
    split; [exact Hamount |]. destruct p; simpl; auto.
  - apply primitive_method_false in Hm as [-> _]. apply grows_refl.
Qed.

Lemma store_evolves_refl (m : gmap string Account) : store_evolves m m.
Proof.
  split.
  - intros k a Hk. exists a. split; [assumption | apply grows_refl].
  - intros k a Hk. left. eauto.
Qed.

Lemma store_evolves_trans (m1 m2 m3 : gmap string Account) :
  store_evolves m1 m2 -> store_evolves m2 m3 -> store_evolves m1 m3.
Proof.
  intros [Hf1 Hb1] [Hf2 Hb2]. split.
  - intros k a Hk. destruct (Hf1 k a Hk) as (a' & Hk' & Hg).
    destruct (Hf2 k a' Hk') as (a'' & Hk'' & Hg'). exists a''.
    split; [assumption |]. now apply (grows_trans a a' a'').
  - intros k a'' Hk''. destruct (Hb2 k a'' Hk'') as [[a' Hk'] | Hnew]; [| now right].
    destruct (Hb1 k a' Hk') as [Hold | (a0 & Hc & Hg)]; [now left |].
    right. exists a0. split; [assumption |].
    destruct (Hf2 k a' Hk') as (a3 & Hk3 & Hg3).
    assert (a3 = a'') as -> by congruence. now apply (grows_trans a0 a' a'').
Qed.

Lemma store_evolves_update (m : gmap string Account) (r : string) (a a' : Account) :
  m !! r = Some a -> grows a a' -> store_evolves m (<[r := a']> m).
Proof.
  intros Hr Hg. split.
  - intros k b Hk. destruct (decide (r = k)) as [<- | Hne].
    + exists a'. rewrite lookup_insert_eq. split; [reflexivity |]. congruence.
    + exists b. rewrite lookup_insert_ne by assumption. split; [assumption | apply grows_refl].
  - intros k b Hk. left. destruct (decide (r = k)) as [<- | Hne]; [eauto |].
    rewrite lookup_insert_ne in Hk by assumption. eauto.
Qed.

Lemma store_evolves_create (m : gmap string Account) (k : string) (a : Account) :
  m !! k = None -> created k a -> store_evolves m (<[k := a]> m).
Proof.
  intros Hk Hc. split.
  - intros r b Hr. exists b. split; [| apply grows_refl].
    rewrite lookup_insert_ne; [assumption | congruence].
  - intros r b Hr. destruct (decide (k = r)) as [<- | Hne].
    + rewrite lookup_insert_eq in Hr. injection Hr as <-. right. exists a.
      split; [assumption | apply grows_refl].
    + rewrite lookup_insert_ne in Hr by assumption. left. eauto.
Qed.

Lemma run_legs_store (legs : list (string * Primitive)) :
  forall (accounts accounts' : gmap string Account) (e e' : Env) (ok : bool),
    run_legs legs accounts e = Some (ok, accounts', e') -> store_evolves accounts accounts'.
Proof.
  induction legs as [| [r0 p] legs IH]; intros accounts accounts' e e' ok; simpl.
  - intros [= <- <- <-]. apply store_evolves_refl.
  - destruct (Command.call r0 (primitive_method p) accounts e) as [[[ok1 acc1] e1] |] eqn:Hc;
      [| discriminate].
    apply call_inv in Hc as (self & self' & Hself & Hm & ->).
    assert (Hstep : store_evolves accounts (<[r0 := self']> accounts)).
    { apply (store_evolves_update _ _ self); [assumption |]. eapply primitive_grows; eassumption. }
    destruct ok1.
    + intros Hrun. apply IH in Hrun. now apply (store_evolves_trans _ _ _ Hstep).
    + now intros [= <- <- <-].
Qed.

(** A command that returns false failed on its first leg: nothing changed. *)
Lemma execute_false (cmd : TransactionCommand)
    (accounts accounts' : gmap string Account) (e e' : Env) :
  Command.execute cmd accounts e = Some (false, accounts', e') ->
  accounts' = accounts /\ e' = e.
Proof.
  destruct cmd as [r x | r x | f t x]; simpl.
  - apply (call_false r (Dep x)).
  - apply (call_false r (Wd x)).
  - destruct (Command.call f (Account.withdraw x) accounts e) as [[[[] acc1] e1] |] eqn:Hw;
      [| | discriminate].
    + intros Hd. exfalso.
      apply call_inv in Hw as (a & a' & _ & Hw & _).
      apply call_inv in Hd as (b & b' & _ & Hd & _).
      pose proof (withdraw_true_amount x a e) as Hx. rewrite Hw in Hx.
      pose proof (deposit_true x b e1 (Hx eq_refl)) as Hok. rewrite Hd in Hok. discriminate.
    + intros [= <- <-]. now apply (call_false f (Wd x)) in Hw.
Qed.

Lemma apply_interest_grows (self self' : Account) (e e' : Env) (i : float) :
  Account.apply_interest self e = (i, self', e') -> grows self self'.
Proof.
  unfold Account.apply_interest.
  destruct (negb _).
  - destruct (Account.deposit _ self e) as [[ok a'] e1] eqn:Hd. intros [= _ <- _].
    exact (primitive_grows (Dep (calculate_interest (interest_strategy self) (balance self)))
             self a' e e1 ok Hd).
  - intros [= _ <- _]. apply grows_refl.
Qed.

(** The five outcomes of a turn of the menu: nothing but a message; a
    command executed with success and pushed; an account created; interest
    applied; a command popped and undone. *)
Lemma step_cases (c : Choice) (s s' : InteractiveBankSystem) :
  InteractiveBankSystem.step c s = Some s' ->
  (database s' = database s /\ undo_stack s' = undo_stack s
   /\ ticks (env s') = ticks (env s))
  \/ (exists cmd e',
        InteractiveBankSystem.command_of c = Some cmd
        /\ Command.execute cmd (database s) (env s) = Some (true, database s', e')
        /\ undo_stack s' = undo_stack s ++ [cmd])
  \/ (exists id a,
        (exists ow ch, c = CreateAccount id ow ch)
        /\ database s !! id = None /\ created id a
        /\ database s' = <[id := a]> (database s)
        /\ undo_stack s' = undo_stack s)
  \/ (exists id a i a' e',
        c = ApplyInterest id
        /\ database s !! id = Some a
        /\ Account.apply_interest a (env s) = (i, a', e')
        /\ database s' = <[id := a']> (database s)
        /\ undo_stack s' = undo_stack s)
  \/ (exists cmd ok e',
        c = UndoLastTransaction
        /\ last (undo_stack s) = Some cmd
        /\ Command.undo cmd (database s) (env s) = Some (ok, database s', e')
        /\ undo_stack s' = removelast (undo_stack s)).
Proof.
  assert (Hsay : forall o, InteractiveBankSystem.say o s = s' ->
            database s' = database s /\ undo_stack s' = undo_stack s
            /\ ticks (env s') = ticks (env s)).
  { intros o <-. repeat split. }
  assert (Hcmd : forall cmd (k : gmap string Account -> Env -> option InteractiveBankSystem)
                   (o : Output),
            InteractiveBankSystem.command_of c = Some cmd ->
            match Command.execute cmd (database s) (env s) with
            | None => None
            | Some (true, accounts, e) => k accounts e
            | Some (false, accounts, e) =>
                Some (mkSystem accounts (undo_stack s) (print o e))
            end = Some s' ->
            (forall accounts e, k accounts e = Some s' ->
               database s' = accounts /\ undo_stack s' = undo_stack s ++ [cmd]) ->
            (database s' = database s /\ undo_stack s' = undo_stack s
             /\ ticks (env s') = ticks (env s))
            \/ (exists cmd e',
                  InteractiveBankSystem.command_of c = Some cmd
                  /\ Command.execute cmd (database s) (env s) = Some (true, database s', e')
                  /\ undo_stack s' = undo_stack s ++ [cmd])).
  { intros cmd k o Hc Hex Hk.
    destruct (Command.execute cmd (database s) (env s)) as [[[[] accounts] e] |] eqn:He;
      [| | discriminate].
    - right. destruct (Hk _ _ Hex) as [<- Hst]. eauto.
    - left. apply execute_false in He as [-> ->]. injection Hex as <-. repeat split. }
  destruct c as [id ow ch | id [x |] | id [x |] | f t [x |] | id |]; simpl.
  - unfold InteractiveBankSystem.create_account, BankDatabase.get_account.
    destruct (database s !! id) eqn:Hid; intros [= Hs].
    + left. now apply (Hsay _ Hs).
    + right. right. left. subst s'. eexists id, _. split; [eauto |].
      split; [assumption |]. split; [eexists _, _; reflexivity |]. split; reflexivity.
  - unfold InteractiveBankSystem.deposit, BankDatabase.get_account.
    destruct (database s !! id); [| intros [= Hs]; left; now apply (Hsay _ Hs)].
    intros Hex. eapply Hcmd in Hex as [Hno | Hpush]; [now left | right; left; exact Hpush | reflexivity |].
    intros accounts e. simpl. destruct (accounts !! id); simpl; [| discriminate].
    intros [= <-]. split; reflexivity.
  - unfold InteractiveBankSystem.deposit, BankDatabase.get_account.
    destruct (database s !! id); intros [= Hs]; left; now apply (Hsay _ Hs).
  - unfold InteractiveBankSystem.withdraw, BankDatabase.get_account.
    destruct (database s !! id); [| intros [= Hs]; left; now apply (Hsay _ Hs)].
    intros Hex. eapply Hcmd in Hex as [Hno | Hpush]; [now left | right; left; exact Hpush | reflexivity |].
    intros accounts e. simpl. destruct (accounts !! id); simpl; [| discriminate].
    intros [= <-]. split; reflexivity.
  - unfold InteractiveBankSystem.withdraw, BankDatabase.get_account.
    destruct (database s !! id); intros [= Hs]; left; now apply (Hsay _ Hs).
  - unfold InteractiveBankSystem.transfer, BankDatabase.get_account.
    destruct (database s !! f), (database s !! t);
      try (intros [= Hs]; left; now apply (Hsay _ Hs)).
    intros Hex. eapply Hcmd in Hex as [Hno | Hpush]; [now left | right; left; exact Hpush | reflexivity |].
    intros accounts e. simpl. destruct (accounts !! f); simpl; [| discriminate].
    destruct (accounts !! t); simpl; [| discriminate].
    intros [= <-]. split; reflexivity.
  - unfold InteractiveBankSystem.transfer, BankDatabase.get_account.
    destruct (database s !! f), (database s !! t);
      intros [= Hs]; left; now apply (Hsay _ Hs).
  - unfold InteractiveBankSystem.apply_interest, BankDatabase.get_account.
    destruct (database s !! id) as [a |] eqn:Hid; intros [= Hs];
      [| left; now apply (Hsay _ Hs)].
    destruct (Account.apply_interest a (env s)) as [[i a'] e'] eqn:Hi.
    right. right. right. left. subst s'. exists id, a, i, a', e'. repeat split; assumption.
  - unfold InteractiveBankSystem.undo_transaction.
    destruct (last (undo_stack s)) as [cmd |] eqn:Hlast;
      [| intros [= Hs]; left; now apply (Hsay _ Hs)].
    destruct (Command.undo cmd (database s) (env s)) as [[[ok accounts] e] |] eqn:Hun;
      [| discriminate].
    intros Hs. right. right. right. right. exists cmd, ok, e.
    split; [reflexivity |]. split; [reflexivity |].
    destruct ok; injection Hs as <-; repeat split; assumption.
Qed.

(** X6. A deposit, a withdrawal or a transfer chosen at the menu either
    executes its command with success and pushes it, or changes nothing but
    the output (an account that is not found, text that is no number, an
    amount that is refused). Creating an account and applying interest leave
    the undo stack as it is, so interest cannot be undone; undo removes the
    top of the stack, if there is one. *)
Theorem turn_is_all_or_nothing (c : Choice) (s s' : InteractiveBankSystem) :
  InteractiveBankSystem.step c s = Some s' ->
  match c with
  | Deposit _ _ | Withdraw _ _ | Transfer _ _ _ =>
      (database s' = database s /\ undo_stack s' = undo_stack s
       /\ ticks (env s') = ticks (env s))
      \/ (exists cmd e',
            InteractiveBankSystem.command_of c = Some cmd
            /\ Command.execute cmd (database s) (env s) = Some (true, database s', e')
            /\ undo_stack s' = undo_stack s ++ [cmd])
  | CreateAccount _ _ _ | ApplyInterest _ => undo_stack s' = undo_stack s
  | UndoLastTransaction => undo_stack s' = removelast (undo_stack s)
  end.
Proof.
  intros Hstep.
  destruct (step_cases _ _ _ Hstep)
    as [(Hd & Hs & Ht) | [(cmd & e' & Hc & Hex & Hs) | [(id & a & (ow & ch & Hc) & _ & _ & _ & Hs)
       | [(id & a & i & a' & e' & Hc & _ & _ & _ & Hs) | (cmd & ok & e' & Hc & _ & _ & Hs)]]]].
  - destruct c; auto. simpl in Hstep.
    unfold InteractiveBankSystem.undo_transaction in Hstep.
    destruct (last (undo_stack s)) as [cmd |] eqn:Hlast.
    + destruct (Command.undo cmd (database s) (env s)) as [[[[] acc] e0] |];
        [| | discriminate]; now injection Hstep as <-.
    + injection Hstep as <-. simpl. apply last_None in Hlast. now rewrite Hlast.
  - destruct c; try discriminate; right; eauto.
  - now subst c.
  - now subst c.
  - now subst c.
Qed.

Lemma store_evolves_filed (m m' : gmap string Account) :
  store_evolves m m' -> filed_by_id m -> filed_by_id m'.
Proof.
  intros [Hf Hb] Hfiled k a' Hk'.
  destruct (Hb k a' Hk') as [[a Hk] | (a0 & (ow & ty & ->) & Hg)].
  - destruct (Hf k a Hk) as (a'' & Hk'' & Hg).
    assert (a'' = a') as -> by congruence.
    destruct Hg as (-> & _). now apply Hfiled in Hk.
  - now destruct Hg as (-> & _).
Qed.

Lemma store_evolves_recorded (m m' : gmap string Account) :
  store_evolves m m' -> histories_recorded m -> histories_recorded m'.
Proof.
  intros [Hf Hb] Hrec k a' Hk'.
  destruct (Hb k a' Hk') as [[a Hk] | (a0 & (ow & ty & ->) & Hg)].
  - destruct (Hf k a Hk) as (a'' & Hk'' & Hg).
    assert (a'' = a') as -> by congruence.
    destruct Hg as (_ & _ & _ & _ & _ & txns & -> & Htxns).
    apply Forall_app. split; [| assumption]. now apply Hrec in Hk.
  - destruct Hg as (_ & _ & _ & _ & _ & txns & -> & Htxns). now simpl.
Qed.

Lemma step_store (c : Choice) (s s' : InteractiveBankSystem) :
  InteractiveBankSystem.step c s = Some s' -> store_evolves (database s) (database s').
Proof.
  intros Hstep.
  destruct (step_cases _ _ _ Hstep)
    as [(-> & _) | [(cmd & e' & _ & Hex & _) | [(id & a & _ & Hid & Hc & -> & _)
       | [(id & a & i & a' & e' & _ & Hid & Hi & -> & _) | (cmd & ok & e' & _ & _ & Hun & _)]]]].
  - apply store_evolves_refl.
  - rewrite execute_legs in Hex. eapply run_legs_store; eassumption.
  - now apply store_evolves_create.
  - apply (store_evolves_update _ _ a); [assumption |]. eapply apply_interest_grows; eassumption.
  - rewrite undo_legs in Hun. eapply run_legs_store; eassumption.
Qed.

Lemma steps_store (cs : list Choice) :
  forall s s' : InteractiveBankSystem,
    InteractiveBankSystem.steps cs s = Some s' -> store_evolves (database s) (database s').
Proof.
  induction cs as [| c cs IH]; intros s s'; simpl.
  - intros [= <-]. apply store_evolves_refl.
  - destruct (InteractiveBankSystem.step c s) as [s1 |] eqn:Hstep; [| discriminate].
    intros Hrest. apply (store_evolves_trans _ (database s1)).
    + now apply (step_store c).
    + now apply IH.
Qed.

(** X7. Whatever is chosen at the menu, for any number of turns: no account
    leaves the database; id, owner, type, observers and strategy of an
    account never change; and its history is only extended, at the end, by
    DEPOSIT and WITHDRAWAL transactions of amounts that passed the guard
    [amount <= 0]: no entry is removed or rewritten. *)
Theorem accounts_persist (cs : list Choice) (s s' : InteractiveBankSystem) :
  InteractiveBankSystem.steps cs s = Some s' ->
  forall k a, database s !! k = Some a ->
    exists a',
      database s' !! k = Some a'
      /\ account_id a' = account_id a
      /\ owner a' = owner a
      /\ account_type a' = account_type a
      /\ observers a' = observers a
      /\ interest_strategy a' = interest_strategy a
      /\ exists txns,
           transaction_history a' = transaction_history a ++ txns
           /\ Forall recorded txns.
Proof. intros Hrun. apply steps_store in Hrun as [Hf _]. exact Hf. Qed.

(** X8. A database where every account is filed under its id stays so over
    any run of the menu. *)
Theorem steps_keep_filed (cs : list Choice) (s s' : InteractiveBankSystem) :
  filed_by_id (database s) ->
  InteractiveBankSystem.steps cs s = Some s' ->
  filed_by_id (database s').
Proof. intros Hfiled Hrun. apply steps_store in Hrun. now apply (store_evolves_filed _ _ Hrun). Qed.

(** X9. Over any run of the menu from a database whose histories hold only
    recorded transactions (an empty database, for one), the histories hold
    only DEPOSIT and WITHDRAWAL transactions, each of an amount for which
    [amount <= 0] is false. *)
Theorem steps_keep_recorded (cs : list Choice) (s s' : InteractiveBankSystem) :
  histories_recorded (database s) ->
  InteractiveBankSystem.steps cs s = Some s' ->
  histories_recorded (database s').
Proof. intros Hrec Hrun. apply steps_store in Hrun. now apply (store_evolves_recorded _ _ Hrun). Qed.

Lemma Forall_removelast {A} (P : A -> Prop) (l : list A) :
  Forall P l -> Forall P (removelast l).
Proof.
  destruct l as [| x l] using rev_ind; [trivial |].
  rewrite removelast_last. intros Hall. now apply Forall_app in Hall as [Hl _].
Qed.

Lemma store_evolves_dom (m m' : gmap string Account) (k : string) :
  store_evolves m m' -> k ∈ dom m -> k ∈ dom m'.
Proof.
  intros [Hf _] [a Hk]%elem_of_dom. destruct (Hf k a Hk) as (a' & Hk' & _).
  apply elem_of_dom. eauto.
Qed.

Lemma step_stack_ok (c : Choice) (s s' : InteractiveBankSystem) :
  stack_ok s -> InteractiveBankSystem.step c s = Some s' -> stack_ok s'.
Proof.
  intros Hok Hstep. pose proof (step_store _ _ _ Hstep) as Hev.
  assert (Hold : Forall (fun cmd => Forall (fun leg => fst leg ∈ dom (database s'))
                                      (legs_undo cmd)) (undo_stack s)).
  { eapply Forall_impl; [exact Hok |]. intros cmd Hcmd.
    eapply Forall_impl; [exact Hcmd |]. intros leg. now apply store_evolves_dom. }
  unfold stack_ok.
  destruct (step_cases _ _ _ Hstep)
    as [(_ & -> & _) | [(cmd & e' & _ & Hex & ->) | [(id & a & _ & _ & _ & _ & ->)
       | [(id & a & i & a' & e' & _ & _ & _ & _ & ->) | (cmd & ok & e' & _ & _ & _ & ->)]]]];
    try assumption.
  - apply Forall_app. split; [assumption |]. constructor; [| constructor].
    rewrite execute_legs in Hex. pose proof (run_legs_refs _ _ _ _ _ Hex) as Hrefs.
    apply legs_undo_refs in Hrefs.
    eapply Forall_impl; [exact Hrefs |]. intros leg. now apply store_evolves_dom.
  - now apply Forall_removelast.
Qed.

Lemma execute_total (cmd : TransactionCommand) (accounts : gmap string Account) (e : Env) :
  Forall (fun leg => fst leg ∈ dom accounts) (legs_execute cmd) ->
  exists ok accounts' e',
    Command.execute cmd accounts e = Some (ok, accounts', e') /\ dom accounts' = dom accounts.
Proof.
  intros Hrefs. destruct (run_legs_total _ accounts e Hrefs) as [[[ok accounts'] e'] Hrun].
  exists ok, accounts', e'. rewrite execute_legs. split; [assumption |].
  eapply run_legs_dom; eassumption.
Qed.

Lemma step_total (c : Choice) (s : InteractiveBankSystem) :
  stack_ok s -> is_Some (InteractiveBankSystem.step c s).
Proof.
  intros Hok.
  assert (Hin : forall (m m' : gmap string Account) (k : string) (a : Account),
            m !! k = Some a -> dom m' = dom m -> is_Some (m' !! k)).
  { intros m m' k a Hk Hdom. apply elem_of_dom. rewrite Hdom. apply elem_of_dom. eauto. }
  destruct c as [id ow ch | id [x |] | id [x |] | f t [x |] | id |]; simpl; try eauto.
  - unfold InteractiveBankSystem.deposit, BankDatabase.get_account.
    destruct (database s !! id) as [a |] eqn:Hid; [| eauto].
    destruct (execute_total (DepositCommand id x) (database s) (env s))
      as (ok & accounts' & e' & -> & Hdom).
    { repeat constructor. simpl. apply elem_of_dom. eauto. }
    destruct ok; [| eauto].
    destruct (Hin _ _ _ _ Hid Hdom) as [a' ->]. simpl. eauto.
  - unfold InteractiveBankSystem.deposit, BankDatabase.get_account.
    destruct (database s !! id); eauto.
  - unfold InteractiveBankSystem.withdraw, BankDatabase.get_account.
    destruct (database s !! id) as [a |] eqn:Hid; [| eauto].
    destruct (execute_total (WithdrawCommand id x) (database s) (env s))
      as (ok & accounts' & e' & -> & Hdom).
    { repeat constructor. simpl. apply elem_of_dom. eauto. }
    destruct ok; [| eauto].
    destruct (Hin _ _ _ _ Hid Hdom) as [a' ->]. simpl. eauto.
  - unfold InteractiveBankSystem.withdraw, BankDatabase.get_account.
    destruct (database s !! id); eauto.
  - unfold InteractiveBankSystem.transfer, BankDatabase.get_account.
    destruct (database s !! f) as [a |] eqn:Hf; [| eauto].
    destruct (database s !! t) as [b |] eqn:Ht; [| eauto].
    destruct (execute_total (TransferCommand f t x) (database s) (env s))
      as (ok & accounts' & e' & -> & Hdom).
    { repeat constructor; simpl; apply elem_of_dom; eauto. }
    destruct ok; [| eauto].
    destruct (Hin _ _ _ _ Hf Hdom) as [a' ->].
    destruct (Hin _ _ _ _ Ht Hdom) as [b' ->]. simpl. eauto.
  - unfold InteractiveBankSystem.transfer, BankDatabase.get_account.
    destruct (database s !! f), (database s !! t); eauto.
  - unfold InteractiveBankSystem.undo_transaction.
    destruct (last (undo_stack s)) as [cmd |] eqn:Hlast; [| eauto].
    apply last_Some_elem_of in Hlast.
    unfold stack_ok in Hok. rewrite Forall_forall in Hok. specialize (Hok cmd Hlast).
    destruct (run_legs_total _ _ (env s) Hok) as [[[ok accounts'] e'] Hrun].
    rewrite undo_legs, Hrun. destruct ok; eauto.
Qed.

(** X10. From a state where every command of the undo stack is on accounts
    of the database (an empty stack, for one), every run of the menu
    returns: no command is ever executed or undone on an account that is not
    in the database; and the stack is again on accounts of the database. *)
Theorem steps_return (cs : list Choice) (s : InteractiveBankSystem) :
  stack_ok s ->
  exists s', InteractiveBankSystem.steps cs s = Some s' /\ stack_ok s'.
Proof.
  revert s. induction cs as [| c cs IH]; intros s Hok; simpl; [eauto |].
  destruct (step_total c s Hok) as [s1 Hstep]. rewrite Hstep.
  apply IH. now apply (step_stack_ok c s).
Qed.

End RunProperties.

(** ** Accounts, commands and the snapshot file, continued *)

Section MoreProperties.
Context `{DateTime}.

(** X5. [create_account] on an id that is taken prints an error and changes
    neither the database nor the undo stack. On a free id it files a new
    account under that id: the given owner, a balance of 0, no transaction,
    the transaction logger attached, and the strategy of the menu choice (2
    is checking, 3 is loan, anything else is savings); the other accounts
    and the undo stack are as before. *)
Theorem create_account_spec (id ow ch : string) (s : InteractiveBankSystem) :
  (is_Some (database s !! id) ->
     InteractiveBankSystem.create_account id ow ch s
       = InteractiveBankSystem.say (Print "Error: Account ID already exists!") s)
  /\ (database s !! id = None ->
      exists a,
        database (InteractiveBankSystem.create_account id ow ch s) !! id = Some a
        /\ account_id a = id
        /\ owner a = ow
        /\ balance a = 0%float
        /\ transaction_history a = []
        /\ observers a = [TransactionLogger]
        /\ interest_strategy a =
             (if String.eqb ch "2" then CheckingInterest
              else if String.eqb ch "3" then LoanInterest
              else SavingsInterest)
        /\ (forall k, k <> id ->
              database (InteractiveBankSystem.create_account id ow ch s) !! k
                = database s !! k)
        /\ undo_stack (InteractiveBankSystem.create_account id ow ch s) = undo_stack s).
Proof.
  unfold InteractiveBankSystem.create_account, BankDatabase.get_account. split.
  - intros [a ->]. reflexivity.
  - intros ->. simpl. unfold BankDatabase.add_account. simpl.
    eexists. split; [apply lookup_insert_eq |]. simpl.
    do 5 (split; [reflexivity |]). split.
    + destruct (String.eqb_spec ch "1") as [-> | _]; [reflexivity |].
      destruct (String.eqb ch "2"); [reflexivity |].
      destruct (String.eqb ch "3"); reflexivity.
    + split; [| reflexivity]. intros k Hk. apply lookup_insert_ne. congruence.
Qed.

(** X11. The undo of a withdrawal that was just executed with success never
    fails: the amount passed the guard of [deposit]. The account then has
    the balance [(b - x) + x], in binary64 arithmetic, and two more
    transactions, the withdrawal and the deposit that undoes it. *)
Theorem withdraw_undo_succeeds (r : string) (x : float)
    (accounts accounts1 : gmap string Account) (e e1 : Env) (a : Account) :
  accounts !! r = Some a ->
  Command.execute (WithdrawCommand r x) accounts e = Some (true, accounts1, e1) ->
  exists accounts2 e2 a2 t1 t2,
    Command.undo (WithdrawCommand r x) accounts1 e1 = Some (true, accounts2, e2)
    /\ accounts2 !! r = Some a2
    /\ balance a2 = (balance a - x + x)%float
    /\ transaction_history a2 =
         transaction_history a
         ++ [mkTransaction "WITHDRAWAL" x t1; mkTransaction "DEPOSIT" x t2].
Proof.
  intros Hr Hex. simpl in *.
  apply call_inv in Hex as (a0 & a1 & Hr0 & Hw & ->).
  assert (a0 = a) as -> by congruence.
  pose proof (withdraw_true_amount x a e) as Hx. rewrite Hw in Hx. specialize (Hx eq_refl).
  apply (primitive_method_true (Wd x)) in Hw as [-> _]. simpl.
  rewrite (call_lookup _ _ _ _ _ (lookup_insert_eq _ _ _)).
  rewrite deposit_accepted by assumption. simpl.
  eexists _, _, _, _, _. split; [reflexivity |].
  split; [apply lookup_insert_eq |]. simpl. split; [reflexivity |].
  now rewrite <- app_assoc.
Qed.

(** X12. A transfer from an account to itself is not refused as such: it
    fails when a withdrawal of the amount would, leaving everything as it
    was, and otherwise succeeds, with a WITHDRAWAL and then a DEPOSIT of the
    amount recorded on the account, and the balance [(b - x) + x]. *)
Theorem transfer_to_self (r : string) (x : float) (accounts : gmap string Account)
    (e : Env) (a : Account) :
  accounts !! r = Some a ->
  ((x <=? 0)%float || (balance a <? x)%float = true ->
     Command.execute (TransferCommand r r x) accounts e = Some (false, accounts, e))
  /\ ((x <=? 0)%float || (balance a <? x)%float = false ->
      exists a' e',
        Command.execute (TransferCommand r r x) accounts e
          = Some (true, <[r := a']> accounts, e')
        /\ balance a' = (balance a - x + x)%float
        /\ transaction_history a' =
             transaction_history a
             ++ [mkTransaction "WITHDRAWAL" x (clock (ticks e));
                 mkTransaction "DEPOSIT" x (clock (S (ticks e)))]
        /\ ticks e' = S (S (ticks e))).
Proof.
  intros Hr. split; intros Hg; simpl; rewrite (call_lookup _ _ _ _ _ Hr).
  - rewrite withdraw_rejected by assumption. simpl. now rewrite insert_id.
  - rewrite withdraw_accepted by assumption. simpl.
    rewrite (call_lookup _ _ _ _ _ (lookup_insert_eq _ _ _)).
    apply orb_false_iff in Hg as [Hle _].
    rewrite deposit_accepted by assumption. simpl.
    rewrite insert_insert_eq.
    eexists _, _. split; [reflexivity |]. simpl.
    split; [reflexivity |]. rewrite !notify_all_ticks. simpl.
    split; [now rewrite <- app_assoc | reflexivity].
Qed.

(** X13. A document with every required field but a timestamp that
    [fromisoformat] rejects is not handled by [load_data]: the [ValueError]
    is none of the exceptions of the [except] clause and leaves the function,
    so the program does not start. *)
Theorem load_unreadable_raises (data : Document) (accounts : gmap string Account) (e : Env) :
  document_complete data = true ->
  timestamps_readable data = false ->
  BankDatabase.load_data (Json data) accounts e = inl ValueError.
Proof.
  intros Hc Hts. pose proof (load_body_defect data accounts) as Hbody.
  rewrite (document_complete_defect data Hc), Hts in Hbody.
  unfold BankDatabase.load_data. now rewrite Hbody.
Qed.

Lemma load_account_observers (d : Typed AccountData) (a : Account) :
  BankDatabase.load_account d = inr a -> observers a = [].
Proof.
  destruct d as [| [[id |] [ow |] ty [b |] txns]]; unfold BankDatabase.load_account; simpl;
    try discriminate.
  all: destruct (default (Is "savings") ty); simpl; try discriminate.
  destruct (BankDatabase.bind (BankDatabase.iterate (default (Items []) txns))
              BankDatabase.load_transactions); simpl; [discriminate |].
  destruct id; [discriminate |]. now intros [= <-].
Qed.

Lemma load_accounts_observers (records : list (Typed AccountData)) :
  forall accounts accounts' : gmap string Account,
    map_Forall (fun _ a => observers a = []) accounts ->
    BankDatabase.load_accounts records accounts = inr accounts' ->
    map_Forall (fun _ a => observers a = []) accounts'.
Proof.
  induction records as [| d records IH]; intros accounts accounts' Hall; simpl.
  - now intros [= <-].
  - destruct (BankDatabase.load_account d) as [exn | a] eqn:Hd; simpl; [discriminate |].
    apply IH. apply map_Forall_insert_2; [| assumption].
    now apply load_account_observers in Hd.
Qed.

(** X14. [load_data] attaches no observer: every account of a database
    loaded at the start has an empty list of observers, so a deposit or a
    withdrawal on it prints no line of the transaction logger (only
    [create_account] attaches the logger). *)
Theorem loaded_accounts_are_silent (file : File) (e e' : Env)
    (accounts : gmap string Account) :
  BankDatabase.load_data file ∅ e = inr (accounts, e') ->
  forall k a, accounts !! k = Some a ->
    observers a = []
    /\ (forall (x : float) (e0 : Env),
          stdout (snd (Account.deposit x a e0)) = stdout e0
          /\ stdout (snd (Account.withdraw x a e0)) = stdout e0).
Proof.
  intros Hload k a Hk.
  assert (Hobs : observers a = []).
  { unfold BankDatabase.load_data in Hload.
    destruct (BankDatabase.load_body file ∅) as [exn | acc] eqn:Hbody.
    - destruct exn; try discriminate; injection Hload as <- _;
        now rewrite lookup_empty in Hk.
    - injection Hload as <- _.
      destruct file as [| | | [[[| records] |]] |]; simpl in Hbody; try discriminate.
      apply (load_accounts_observers records ∅ acc (map_Forall_empty _) Hbody k a Hk). }
  split; [assumption |]. intros x e0. split.
  - destruct (x <=? 0)%float eqn:Hg.
    + now rewrite deposit_rejected.
    + rewrite deposit_accepted by assumption. simpl.
      rewrite notify_all_stdout. simpl. rewrite Hobs. simpl. apply app_nil_r.
  - destruct ((x <=? 0)%float || (balance a <? x)%float) eqn:Hg.
    + now rewrite withdraw_rejected.
    + rewrite withdraw_accepted by assumption. simpl.
      rewrite notify_all_stdout. simpl. rewrite Hobs. simpl. apply app_nil_r.
Qed.

Lemma init_filed (file : File) (e : Env) (s : InteractiveBankSystem) :
  InteractiveBankSystem.init file e = inr s -> filed_by_id (database s) /\ undo_stack s = [].
Proof.
  unfold InteractiveBankSystem.init, BankDatabase.new, BankDatabase.load_data.
  destruct (BankDatabase.load_body file ∅) as [exn | acc] eqn:Hbody.
  - destruct exn; try discriminate; intros [= <-]; split; try reflexivity;
      apply map_Forall_empty.
  - intros [= <-]. split; [| reflexivity]. simpl.
    destruct file as [| | | [[[| records] |]] |]; simpl in Hbody; try discriminate.
    apply (load_accounts_filed records ∅ acc); [apply map_Forall_empty | assumption].
Qed.

(** X15. Leaving and starting again: after any run of the menu in a process
    that started from a file, choice 0 writes a file from which the next
    process starts without a warning, with the same ids and, under each, an
    account with the same id, owner, type, balance and transactions; the
    accounts have no observer any more, and the undo stack is empty: what
    was done before leaving cannot be undone after. *)
Theorem quit_then_init (file : File) (e0 e1 : Env) (cs : list Choice)
    (s0 s : InteractiveBankSystem) :
  (forall d : datetime, fromisoformat (isoformat d) = Some d) ->
  InteractiveBankSystem.init file e0 = inr s0 ->
  InteractiveBankSystem.steps cs s0 = Some s ->
  InteractiveBankSystem.init (fst (InteractiveBankSystem.quit s)) e1
    = inr (mkSystem (restored <$> database s) [] e1).
Proof.
  intros Hiso Hinit Hrun. apply init_filed in Hinit as [Hfiled _].
  pose proof (store_evolves_filed _ _ (steps_store _ _ _ Hrun) Hfiled) as Hfiled'.
  unfold InteractiveBankSystem.init, InteractiveBankSystem.quit, BankDatabase.new. simpl.
  now rewrite (load_save _ e1 Hiso Hfiled').
Qed.

End MoreProperties.

(** ** Runs of the menu and of the snapshot file, continued *)

Section MoreRuns.
Local Existing Instance Seconds.

(** [init_strategy] on the type written Checking. *)
Lemma init_strategy_witness :
  interest_strategy (Account.init "A" "alice" "Checking") = CheckingInterest.
Proof.
  destruct (init_strategy "A" "alice" "Checking" eq_refl) as (_ & Hc & _).
  now apply Hc.
Defined.

(** [turn_is_all_or_nothing] on the deposit of the session. *)
Lemma turn_is_all_or_nothing_witness :
  (database after1 = database opened /\ undo_stack after1 = undo_stack opened
   /\ ticks (env after1) = ticks (env opened))
  \/ (exists cmd e',
        InteractiveBankSystem.command_of (Deposit "A" (Some 100%float)) = Some cmd
        /\ Command.execute cmd (database opened) (env opened) = Some (true, database after1, e')
        /\ undo_stack after1 = undo_stack opened ++ [cmd]).
Proof.
  exact (turn_is_all_or_nothing (Deposit "A" (Some 100%float)) opened after1 eq_refl).
Defined.

(** [accounts_persist] on the account of Alice over the deposit, the
    withdrawal and the transfer of the session. *)
Lemma accounts_persist_witness :
  exists a',
    database after3 !! "A" = Some a'
    /\ account_id a' = "A"
    /\ owner a' = "alice"
    /\ account_type a' = "savings"
    /\ observers a' = [TransactionLogger]
    /\ interest_strategy a' = SavingsInterest
    /\ exists txns, transaction_history a' = [] ++ txns /\ Forall recorded txns.
Proof.
  exact (accounts_persist
           [Deposit "A" (Some 100%float); Withdraw "A" (Some 30%float);
            Transfer "A" "B" (Some 20%float)]
           opened after3 eq_refl "A"
           (Account.attach TransactionLogger (Account.init "A" "alice" "savings")) eq_refl).
Defined.

(** [steps_keep_filed], [steps_keep_recorded] and [steps_return] on the
    session from the empty database. *)
Lemma steps_keep_filed_witness : filed_by_id (database after3).
Proof.
  apply (steps_keep_filed session_choices fresh after3).
  - apply map_Forall_empty.
  - reflexivity.
Defined.

Lemma steps_keep_recorded_witness : histories_recorded (database after3).
Proof.
  apply (steps_keep_recorded session_choices fresh after3).
  - apply map_Forall_empty.
  - reflexivity.
Defined.

Lemma steps_return_witness :
  exists s', InteractiveBankSystem.steps session_choices fresh = Some s' /\ stack_ok s'.
Proof. apply (steps_return session_choices fresh). constructor. Defined.

(** [withdraw_undo_succeeds] on a withdrawal of 30 from Alice (100). *)
Lemma withdraw_undo_succeeds_witness :
  exists accounts1 e1 accounts2 e2 a2 t1 t2,
    Command.execute (WithdrawCommand "A" 30) two_accounts quiet = Some (true, accounts1, e1)
    /\ Command.undo (WithdrawCommand "A" 30) accounts1 e1 = Some (true, accounts2, e2)
    /\ accounts2 !! "A" = Some a2
    /\ balance a2 = (100 - 30 + 30)%float
    /\ transaction_history a2 =
         [mkTransaction "WITHDRAWAL" 30 t1; mkTransaction "DEPOSIT" 30 t2].
Proof.
  destruct (Command.execute (WithdrawCommand "A" 30) two_accounts quiet)
    as [[[[] accounts1] e1] |] eqn:Hex;
    [| vm_compute in Hex; discriminate | vm_compute in Hex; discriminate].
  destruct (withdraw_undo_succeeds "A" 30 two_accounts accounts1 quiet e1 (alice 100)
              eq_refl Hex)
    as (accounts2 & e2 & a2 & t1 & t2 & Hun & Ha2 & Hb & Hh).
  exists accounts1, e1, accounts2, e2, a2, t1, t2. repeat split; assumption.
Defined.

(** [transfer_to_self] on a transfer of 30 from Alice (100) to Alice. *)
Lemma transfer_to_self_witness :
  exists a' e',
    Command.execute (TransferCommand "A" "A" 30) two_accounts quiet
      = Some (true, <["A" := a']> two_accounts, e')
    /\ balance a' = (100 - 30 + 30)%float
    /\ length (transaction_history a') = 2.
Proof.
  destruct (transfer_to_self "A" 30 two_accounts quiet (alice 100) eq_refl) as [_ Hok].
  destruct (Hok eq_refl) as (a' & e' & Hex & Hb & Hh & _).
  exists a', e'. split; [exact Hex |]. split; [exact Hb |]. now rewrite Hh.
Defined.

(** [load_unreadable_raises] on the record with the timestamp yesterday. *)
Lemma load_unreadable_raises_witness :
  BankDatabase.load_data (Json (mkDocument (Some (Items [record_with_bad_timestamp])))) ∅ quiet
    = inl ValueError.
Proof.
  apply (load_unreadable_raises (mkDocument (Some (Items [record_with_bad_timestamp]))) ∅ quiet);
    reflexivity.
Defined.

(** [loaded_accounts_are_silent] on the account of Carol, loaded from the
    record without a type. *)
Lemma loaded_accounts_are_silent_witness :
  observers (@mkAccount Seconds "C" "carol" "savings" 7 [] [] SavingsInterest) = []
  /\ (forall (x : float) (e0 : Env),
        stdout (snd (Account.deposit x
                       (@mkAccount Seconds "C" "carol" "savings" 7 [] [] SavingsInterest) e0))
          = stdout e0
        /\ stdout (snd (Account.withdraw x
                          (@mkAccount Seconds "C" "carol" "savings" 7 [] [] SavingsInterest) e0))
             = stdout e0).
Proof.
  apply (loaded_accounts_are_silent (Json (mkDocument (Some (Items [record_without_type]))))
           quiet quiet
           {["C" := @mkAccount Seconds "C" "carol" "savings" 7 [] [] SavingsInterest]}
           eq_refl "C").
  reflexivity.
Defined.

(** [quit_then_init] on the session in a process that started without a
    file. *)
Lemma quit_then_init_witness :
  InteractiveBankSystem.init (fst (InteractiveBankSystem.quit session_end)) quiet
    = inr (mkSystem (restored <$> database session_end) [] quiet).
Proof.
  apply (quit_then_init NoFile quiet quiet session_choices started session_end
           Seconds_roundtrip); reflexivity.
Defined.

End MoreRuns.
